(** * AI news summarizer: the frontend client and the ingestion contract

    A shallow embedding of the TypeScript frontend of the news summarizer
    (the axios client of [lib/api.ts], the [AuthProvider] of
    [contexts/AuthContext.tsx], the handlers of [AppContent] and the
    sentiment chart data of [AnalysisDashboard]) together with a model of
    the backend ingestion contract, and the properties the specification
    states about them.

    Conventions of the embedding.
    - JavaScript numbers that are identifiers, counts, status codes or
      milliseconds are integers ([Z]); the sentiment and score fields of an
      analysis are exact rationals ([Q]).
    - State variables hold values of their declared TypeScript types;
      [null] and [undefined] of an optional value are both [None].
    - An [async] function is a state transformer over a [World] that may
      return or throw; [await] is sequencing, and a promise rejection is a
      throw.  The server is a function of the requests received so far. *)

From Stdlib Require Import ZArith QArith Qround String Ascii List Lia Lqa.
From stdpp Require Import base strings list gmap pretty.
From stdpp Require Import sorting.

Open Scope string_scope.
Open Scope list_scope.

(** ** JavaScript primitives *)

Module JS.

(** [s.startsWith(p)] *)
Fixpoint startsWith (s p : string) {struct p} : bool :=
  match p with
  | EmptyString => true
  | String a p' =>
      match s with
      | EmptyString => false
      | String b s' => Ascii.eqb a b && startsWith s' p'
      end
  end.

(** The characters of a string, as one-character strings:
    [s.split("")]. *)
Fixpoint chars (s : string) : list string :=
  match s with
  | EmptyString => []
  | String c s' => String c EmptyString :: chars s'
  end.

(** Scanning loop of [split] for a non-empty separator.  [skip] counts the
    characters of a separator occurrence still to be dropped, [cur] is the
    piece being accumulated. *)
Fixpoint split_from (sep : string) (skip : nat) (cur s : string) : list string :=
  match s with
  | EmptyString => [cur]
  | String c s' =>
      match skip with
      | S k => split_from sep k cur s'
      | O =>
          if startsWith s sep
          then cur :: split_from sep (String.length sep - 1) EmptyString s'
          else split_from sep 0 (cur +:+ String c EmptyString) s'
      end
  end.

(** [s.split(sep)] *)
Definition split (s sep : string) : list string :=
  match sep with
  | EmptyString => chars s
  | _ => split_from sep 0 EmptyString s
  end.

(** Truthiness of an optional string: [undefined] and [""] are falsy. *)
Definition truthy (v : option string) : bool :=
  match v with
  | Some s => negb (String.eqb s "")
  | None => false
  end.

(** [n || d] on an optional number: [undefined] and [0] are falsy. *)
Definition num_or (n : option Z) (d : Z) : Z :=
  match n with
  | Some z => if (z =? 0)%Z then d else z
  | None => d
  end.

(** [Math.round]: the nearest integer, halves rounded up. *)
Definition Math_round (x : Q) : Z := Qfloor (x + (1 # 2)).

(** [rows.join(sep)] *)
Fixpoint join (rows : list string) (sep : string) : string :=
  match rows with
  | [] => EmptyString
  | [r] => r
  | r :: rest => r +:+ sep +:+ join rest sep
  end.

(** White space as [trim] sees it, among the code units below 256: tab,
    line feed, vertical tab, form feed, carriage return, space and the
    no-break space. *)
Definition is_whitespace (c : ascii) : bool :=
  let n := nat_of_ascii c in
  ((9 <=? n)%nat && (n <=? 13)%nat) || (n =? 32)%nat || (n =? 160)%nat.

Fixpoint trimStart (s : string) : string :=
  match s with
  | EmptyString => EmptyString
  | String c s' => if is_whitespace c then trimStart s' else s
  end.

Fixpoint trimEnd (s : string) : string :=
  match s with
  | EmptyString => EmptyString
  | String c s' =>
      match trimEnd s' with
      | EmptyString => if is_whitespace c then EmptyString else String c EmptyString
      | t => String c t
      end
  end.

(** [s.trim()] *)
Definition trim (s : string) : string := trimEnd (trimStart s).

(** [s.replace(p, r)] for one-character [p] and [r]: the first occurrence
    only is replaced. *)
Fixpoint replace_first (p r : ascii) (s : string) : string :=
  match s with
  | EmptyString => EmptyString
  | String c s' =>
      if Ascii.eqb c p then String r s' else String c (replace_first p r s')
  end.

(** The class [\w]: ASCII letters, digits and the underscore. *)
Definition is_word (c : ascii) : bool :=
  let n := nat_of_ascii c in
  ((48 <=? n)%nat && (n <=? 57)%nat) || ((65 <=? n)%nat && (n <=? 90)%nat) ||
  ((97 <=? n)%nat && (n <=? 122)%nat) || (n =? 95)%nat.

(** [l.toUpperCase()] for a character of the class [\w]: the lower-case
    letters move to upper case, the others stay. *)
Definition toUpperCase (c : ascii) : ascii :=
  let n := nat_of_ascii c in
  if ((97 <=? n)%nat && (n <=? 122)%nat) then ascii_of_nat (n - 32) else c.

(** [s.replace(/\b\w/g, l => l.toUpperCase())]: every word character that
    follows the start of the string or a non-word character is put in upper
    case.  [prev] tells whether the character before is a word character. *)
Fixpoint capitalize_from (prev : bool) (s : string) : string :=
  match s with
  | EmptyString => EmptyString
  | String c s' =>
      String (if is_word c && negb prev then toUpperCase c else c)
             (capitalize_from (is_word c) s')
  end.

Definition capitalize_words (s : string) : string := capitalize_from false s.

End JS.

(** ** Types for API responses ([lib/api.ts]) *)

Record UserProfile := {
  bio : string;
  avatar : option string;
  location : string;
  website : option string;
  email_notifications : bool;
  total_analyses_created : Z;
  last_analysis_date : option string
}.

Record User := {
  user_id : Z;
  username : string;
  first_name : string;
  last_name : string;
  email : string;
  profile : UserProfile
}.

Record NewsArticle := {
  id : Z;
  title : string;
  description : string;
  content : option string;
  url : string;
  url_to_image : option string;
  author : option string;
  source_name : string;
  category_name : option string;
  category_slug : option string;
  published_at : string;
  has_analysis : bool
}.

Record NewsCategory := {
  category_id : Z;
  name : string;
  slug : string;
  category_description : string;
  article_count : Z
}.

Record SentimentAnalysis := {
  analysis_id : Z;
  article : NewsArticle;
  political_bias : string;
  bias_confidence_score : Q;
  bias_reasoning : string;
  positive_sentiment : Q;
  negative_sentiment : Q;
  neutral_sentiment : Q;
  overall_sentiment_score : Q;
  primary_topics : list string;
  topic_distribution : list (string * Q);
  key_themes : list string;
  emotional_tone : string;
  controversy_level : Q;
  bias_score_normalized : Q;
  created_at : string
}.

(** ** Requests, replies and the world the client runs in *)

Inductive Method := GET | POST | PATCH.

(** Values placed in request bodies and query parameters. *)
Inductive Value :=
| VUndefined
| VBool (b : bool)
| VNum (z : Z)
| VStr (s : string).

Definition Fields := list (string * Value).

(** The optional [config] argument of [apiClient.get/post/patch]: every
    entry may be left out. *)
Record AxiosRequestConfig := {
  cfg_params : option Fields;
  cfg_timeout : option Z;
  cfg_withCredentials : option bool;
  cfg_headers : gmap string string
}.

(** A request as handed to the transport. *)
Record Request := {
  method : Method;
  req_url : string;
  baseURL : string;
  data : option Fields;
  params : option Fields;
  timeout : option Z;
  withCredentials : bool;
  headers : gmap string string
}.

(** The body of a reply, at the shapes the client reads.  [BodyNull] is a
    JSON [null]; [BodyOther] is any object or string with none of the
    properties the client reads (an error detail, an empty body). *)
Inductive Body :=
| BodyArticles (l : list NewsArticle)
| BodyPage (results : list NewsArticle)
| BodyCategories (l : list NewsCategory)
| BodyAnalysis (analysis : SentimentAnalysis)
| BodyCreated (created_count : Z)
| BodyUser (u : User)
| BodyAuth (u : User)
| BodyOther
| BodyNull.

Record AxiosResponse := {
  status : Z;
  response_data : Body
}.

(** What the transport gives back: an HTTP reply, or none (connection
    refused, or the timeout elapsed). *)
Inductive Reply :=
| HttpReply (r : AxiosResponse)
| NoReply (code : string).

(** [error.response] is undefined when no reply arrived. *)
Record AxiosError := {
  response : option AxiosResponse;
  error_code : string
}.

Inductive Exn :=
| EAxios (e : AxiosError)
| ETypeError (msg : string).

Record Browser := {
  document_cookie : string;
  localStorage : gmap string string;
  location_href : string;
  console : list string
}.

(** State of [AuthProvider]. *)
Record AuthState := {
  user : option User;
  authLoading : bool
}.

(** State of [AppContent]. *)
Record AppState := {
  articles : list NewsArticle;
  categories : list NewsCategory;
  selectedAnalysis : option SentimentAnalysis;
  isLoading : bool;
  isFetchingNews : bool;
  isAnalyzing : bool;
  analyzingArticleId : option Z;
  error : option string;
  selectedCategory : option string;
  isAuthModalOpen : bool
}.

Record World := {
  browser : Browser;
  server : list Request -> Request -> Reply;
  sent : list Request;
  auth : AuthState;
  app : AppState
}.

(** ** The monad of asynchronous client code *)

Inductive Outcome (A : Type) :=
| Returned (a : A)
| Thrown (e : Exn).
Arguments Returned {A} a.
Arguments Thrown {A} e.

Definition M (A : Type) : Type := World -> Outcome A * World.

Definition ret {A} (a : A) : M A := fun w => (Returned a, w).

Definition throw {A} (e : Exn) : M A := fun w => (Thrown e, w).

Definition bind {A B} (m : M A) (k : A -> M B) : M B :=
  fun w =>
    match m w with
    | (Returned a, w') => k a w'
    | (Thrown e, w') => (Thrown e, w')
    end.

(** [try { body } catch (e) { handler }] *)
Definition try_catch {A} (body : M A) (handler : Exn -> M A) : M A :=
  fun w =>
    match body w with
    | (Returned a, w') => (Returned a, w')
    | (Thrown e, w') => handler e w'
    end.

(** [try { body } finally { cleanup }]: the cleanup runs on both exits and
    the outcome of the body is kept unless the cleanup throws. *)
Definition finally {A} (body : M A) (cleanup : M unit) : M A :=
  fun w =>
    match body w with
    | (r, w') =>
        match cleanup w' with
        | (Returned _, w'') => (r, w'')
        | (Thrown e, w'') => (Thrown e, w'')
        end
    end.

Definition get_world : M World := fun w => (Returned w, w).

Definition modify (f : World -> World) : M unit := fun w => (Returned tt, f w).

Declare Scope client_scope.
Delimit Scope client_scope with client.
Notation "x <- m ;; k" := (bind m (fun x => k))
  (at level 100, m at next level, right associativity) : client_scope.
Notation "m ;;; k" := (bind m (fun _ => k))
  (at level 100, right associativity) : client_scope.
Open Scope client_scope.

(** *** Updating the world *)

Definition with_browser (f : Browser -> Browser) (w : World) : World :=
  {| browser := f (browser w); server := server w; sent := sent w;
     auth := auth w; app := app w |}.

Definition with_sent (f : list Request -> list Request) (w : World) : World :=
  {| browser := browser w; server := server w; sent := f (sent w);
     auth := auth w; app := app w |}.

Definition with_auth (f : AuthState -> AuthState) (w : World) : World :=
  {| browser := browser w; server := server w; sent := sent w;
     auth := f (auth w); app := app w |}.

Definition with_app (f : AppState -> AppState) (w : World) : World :=
  {| browser := browser w; server := server w; sent := sent w;
     auth := auth w; app := f (app w) |}.

(** [localStorage.removeItem(key)] *)
Definition localStorage_removeItem (key : string) : M unit :=
  modify (with_browser (fun b =>
    {| document_cookie := document_cookie b;
       localStorage := delete key (localStorage b);
       location_href := location_href b;
       console := console b |})).

(** [localStorage.setItem(key, value)] *)
Definition localStorage_setItem (key value : string) : M unit :=
  modify (with_browser (fun b =>
    {| document_cookie := document_cookie b;
       localStorage := <[key := value]> (localStorage b);
       location_href := location_href b;
       console := console b |})).

(** [window.location.href = target] *)
Definition set_location_href (target : string) : M unit :=
  modify (with_browser (fun b =>
    {| document_cookie := document_cookie b;
       localStorage := localStorage b;
       location_href := target;
       console := console b |})).

(** [console.error(label, err)]: only the label is recorded. *)
Definition console_error (label : string) : M unit :=
  modify (with_browser (fun b =>
    {| document_cookie := document_cookie b;
       localStorage := localStorage b;
       location_href := location_href b;
       console := console b ++ [label] |})).

(** ** The axios instance ([lib/api.ts]) *)

Definition API_BASE_URL : string := "http://localhost:8000/api".

(** The defaults given to [axios.create]. *)
Record Defaults := {
  default_baseURL : string;
  default_timeout : Z;
  default_withCredentials : bool;
  default_headers : gmap string string
}.

Definition apiClient_defaults : Defaults :=
  {| default_baseURL := API_BASE_URL;
     default_timeout := 120000;
     default_withCredentials := true;
     default_headers := {[ "Content-Type" := "application/json" ]} |}.

(** A call made without a [config] argument. *)
Definition no_config : AxiosRequestConfig :=
  {| cfg_params := None; cfg_timeout := None;
     cfg_withCredentials := None; cfg_headers := ∅ |}.

(** The [{ params }] config of the list endpoints. *)
Definition params_config (p : option Fields) : AxiosRequestConfig :=
  {| cfg_params := p; cfg_timeout := None;
     cfg_withCredentials := None; cfg_headers := ∅ |}.

(** axios merges the per-call config over the instance defaults: an entry
    of the call wins, a missing one falls back to the default. *)
Definition mergeConfig (d : Defaults) (m : Method) (u : string)
    (body : option Fields) (c : AxiosRequestConfig) : Request :=
  {| method := m;
     req_url := u;
     baseURL := default_baseURL d;
     data := body;
     params := cfg_params c;
     timeout := Some (default (default_timeout d) (cfg_timeout c));
     withCredentials := default (default_withCredentials d) (cfg_withCredentials c);
     headers := cfg_headers c ∪ default_headers d |}.

(** The CSRF token read from [document.cookie]:
    [cookie.split('; ').find(row => row.startsWith('csrftoken='))?.split('=')[1]] *)
Definition csrfToken (cookie : string) : option string :=
  match List.find (fun row => JS.startsWith row "csrftoken=") (JS.split cookie "; ") with
  | Some row => JS.split row "=" !! 1%nat
  | None => None
  end.

(** Request interceptor: adds the CSRF token when there is one. *)
Definition request_interceptor (cookie : string) (config : Request) : Request :=
  let token := csrfToken cookie in
  if JS.truthy token then
    {| method := method config;
       req_url := req_url config;
       baseURL := baseURL config;
       data := data config;
       params := params config;
       timeout := timeout config;
       withCredentials := withCredentials config;
       headers := <[ "X-CSRFToken" := default "" token ]> (headers config) |}
  else config.

(** Response interceptor, error side: on a 401 the stored user is dropped
    and the browser is sent to the login page; the error is rejected again
    in every case. *)
Definition response_interceptor_error {A} (err : AxiosError) : M A :=
  (match response err with
   | Some r =>
       if (status r =? 401)%Z
       then (localStorage_removeItem "user" ;;; set_location_href "/login")
       else ret tt
   | None => ret tt
   end) ;;;
  throw (EAxios err).

(** Response interceptor, success side: the response is passed on. *)
Definition response_interceptor {A} (r : A) : M A := ret r.

(** axios' default [validateStatus]. *)
Definition validateStatus (s : Z) : bool := (200 <=? s)%Z && (s <? 300)%Z.

(** The transport: the request is recorded, the server answers, and the
    reply settles the promise. *)
Definition dispatch (r : Request) : M AxiosResponse :=
  w <- get_world ;;
  let reply := server w (sent w) r in
  modify (with_sent (fun l => l ++ [r])) ;;;
  match reply with
  | HttpReply resp =>
      if validateStatus (status resp)
      then ret resp
      else throw (EAxios {| response := Some resp; error_code := "ERR_BAD_RESPONSE" |})
  | NoReply code =>
      throw (EAxios {| response := None; error_code := code |})
  end.

(** The request that leaves the client for a call made in world [w]: the
    merged config after the request interceptor. *)
Definition outgoing (m : Method) (u : string) (body : option Fields)
    (c : AxiosRequestConfig) (w : World) : Request :=
  request_interceptor (document_cookie (browser w))
    (mergeConfig apiClient_defaults m u body c).

(** [apiClient.request]: request interceptor, transport, response
    interceptors. *)
Definition apiClient_request (m : Method) (u : string) (body : option Fields)
    (c : AxiosRequestConfig) : M AxiosResponse :=
  w <- get_world ;;
  let config := outgoing m u body c w in
  try_catch (r <- dispatch config ;; response_interceptor r)
    (fun e =>
       match e with
       | EAxios err => response_interceptor_error err
       | _ => throw e
       end).

Definition apiClient_get (u : string) (c : AxiosRequestConfig) : M AxiosResponse :=
  apiClient_request GET u None c.

Definition apiClient_post (u : string) (body : option Fields)
    (c : AxiosRequestConfig) : M AxiosResponse :=
  apiClient_request POST u body c.

Definition apiClient_patch (u : string) (body : option Fields)
    (c : AxiosRequestConfig) : M AxiosResponse :=
  apiClient_request PATCH u body c.

(** *** Arguments of the API methods *)

Definition opt_str (v : option string) : Value :=
  match v with Some s => VStr s | None => VUndefined end.

Definition opt_num (v : option Z) : Value :=
  match v with Some z => VNum z | None => VUndefined end.

Record RegisterData := {
  reg_username : string;
  reg_email : string;
  reg_password : string;
  reg_password_confirm : string;
  reg_first_name : option string;
  reg_last_name : option string
}.

Definition register_fields (d : RegisterData) : Fields :=
  [ ("username", VStr (reg_username d));
    ("email", VStr (reg_email d));
    ("password", VStr (reg_password d));
    ("password_confirm", VStr (reg_password_confirm d));
    ("first_name", opt_str (reg_first_name d));
    ("last_name", opt_str (reg_last_name d)) ].

Record ArticleQuery := {
  q_category : option string;
  q_search : option string;
  q_page : option Z;
  q_page_size : option Z
}.

Definition article_query_fields (q : ArticleQuery) : Fields :=
  [ ("category", opt_str (q_category q));
    ("search", opt_str (q_search q));
    ("page", opt_num (q_page q));
    ("page_size", opt_num (q_page_size q)) ].

Record AnalysisQuery := {
  q_bias : option string;
  q_analysis_category : option string;
  q_analysis_page : option Z;
  q_analysis_page_size : option Z
}.

Definition analysis_query_fields (q : AnalysisQuery) : Fields :=
  [ ("bias", opt_str (q_bias q));
    ("category", opt_str (q_analysis_category q));
    ("page", opt_num (q_analysis_page q));
    ("page_size", opt_num (q_analysis_page_size q)) ].

Record PasswordChange := {
  old_password : string;
  new_password : string;
  new_password_confirm : string
}.

Definition password_change_fields (d : PasswordChange) : Fields :=
  [ ("old_password", VStr (old_password d));
    ("new_password", VStr (new_password d));
    ("new_password_confirm", VStr (new_password_confirm d)) ].

(** *** Authentication API *)

Module authAPI.

Definition login (username password : string) : M AxiosResponse :=
  apiClient_post "/auth/login/"
    (Some [("username", VStr username); ("password", VStr password)]) no_config.

Definition register (userData : RegisterData) : M AxiosResponse :=
  apiClient_post "/auth/register/" (Some (register_fields userData)) no_config.

Definition logout : M AxiosResponse :=
  apiClient_post "/auth/logout/" None no_config.

Definition getCurrentUser : M AxiosResponse :=
  apiClient_get "/auth/user/" no_config.

Definition getDashboard : M AxiosResponse :=
  apiClient_get "/auth/dashboard/" no_config.

End authAPI.

(** *** News API *)

Module newsAPI.

Definition getArticles (params : option ArticleQuery) : M AxiosResponse :=
  apiClient_get "/news/articles/" (params_config (article_query_fields <$> params)).

Definition getArticle (id : Z) : M AxiosResponse :=
  apiClient_get ("/news/articles/" +:+ pretty id +:+ "/") no_config.

Definition getCategories : M AxiosResponse :=
  apiClient_get "/news/categories/" no_config.

Definition getCategoriesWithCounts : M AxiosResponse :=
  apiClient_get "/news/articles/categories_with_counts/" no_config.

Definition getTrending : M AxiosResponse :=
  apiClient_get "/news/articles/trending/" no_config.

Definition markAsRead (articleId : Z) : M AxiosResponse :=
  apiClient_post ("/news/articles/" +:+ pretty articleId +:+ "/mark_as_read/")
    None no_config.

(** The body sent by [fetchLatest]: [{ category, max_articles: max_articles || 50 }] *)
Definition fetchLatest_body (category : option string) (max_articles : option Z) : Fields :=
  [ ("category", opt_str category);
    ("max_articles", VNum (JS.num_or max_articles 50)) ].

Definition fetchLatest (category : option string) (max_articles : option Z)
    : M AxiosResponse :=
  apiClient_post "/news/articles/fetch_latest/"
    (Some (fetchLatest_body category max_articles)) no_config.

End newsAPI.

(** *** Analysis API *)

Module analysisAPI.

Definition getAnalyses (params : option AnalysisQuery) : M AxiosResponse :=
  apiClient_get "/analysis/analyses/" (params_config (analysis_query_fields <$> params)).

Definition getAnalysis (id : Z) : M AxiosResponse :=
  apiClient_get ("/analysis/analyses/" +:+ pretty id +:+ "/") no_config.

Definition analyzeArticle (articleId : Z) : M AxiosResponse :=
  apiClient_post "/analysis/analyses/analyze_article/"
    (Some [("article_id", VNum articleId)]) no_config.

Definition getStats : M AxiosResponse :=
  apiClient_get "/analysis/analyses/stats/" no_config.

Definition getTrendingTopics (days : option Z) : M AxiosResponse :=
  apiClient_get "/analysis/analyses/trending_topics/"
    (params_config (Some [("days", VNum (JS.num_or days 7))])).

Definition getRecent : M AxiosResponse :=
  apiClient_get "/analysis/analyses/recent/" no_config.

Definition getControversial : M AxiosResponse :=
  apiClient_get "/analysis/analyses/controversial/" no_config.

End analysisAPI.

(** *** Profile API *)

Module profileAPI.

Definition getProfile : M AxiosResponse :=
  apiClient_get "/auth/profile/" no_config.

Definition updateProfile (data : Fields) : M AxiosResponse :=
  apiClient_patch "/auth/profile/" (Some data) no_config.

Definition getStats : M AxiosResponse :=
  apiClient_get "/auth/profile/stats/" no_config.

Definition changePassword (data : PasswordChange) : M AxiosResponse :=
  apiClient_post "/auth/profile/change_password/"
    (Some (password_change_fields data)) no_config.

End profileAPI.

(** Every method exported by [lib/api.ts], with its arguments. *)
Inductive ApiCall :=
| Auth_login (username password : string)
| Auth_register (userData : RegisterData)
| Auth_logout
| Auth_getCurrentUser
| Auth_getDashboard
| News_getArticles (params : option ArticleQuery)
| News_getArticle (id : Z)
| News_getCategories
| News_getCategoriesWithCounts
| News_getTrending
| News_markAsRead (articleId : Z)
| News_fetchLatest (category : option string) (max_articles : option Z)
| Analysis_getAnalyses (params : option AnalysisQuery)
| Analysis_getAnalysis (id : Z)
| Analysis_analyzeArticle (articleId : Z)
| Analysis_getStats
| Analysis_getTrendingTopics (days : option Z)
| Analysis_getRecent
| Analysis_getControversial
| Profile_getProfile
| Profile_updateProfile (data : Fields)
| Profile_getStats
| Profile_changePassword (data : PasswordChange).

Definition invoke (c : ApiCall) : M AxiosResponse :=
  match c with
  | Auth_login u p => authAPI.login u p
  | Auth_register d => authAPI.register d
  | Auth_logout => authAPI.logout
  | Auth_getCurrentUser => authAPI.getCurrentUser
  | Auth_getDashboard => authAPI.getDashboard
  | News_getArticles p => newsAPI.getArticles p
  | News_getArticle i => newsAPI.getArticle i
  | News_getCategories => newsAPI.getCategories
  | News_getCategoriesWithCounts => newsAPI.getCategoriesWithCounts
  | News_getTrending => newsAPI.getTrending
  | News_markAsRead i => newsAPI.markAsRead i
  | News_fetchLatest c m => newsAPI.fetchLatest c m
  | Analysis_getAnalyses p => analysisAPI.getAnalyses p
  | Analysis_getAnalysis i => analysisAPI.getAnalysis i
  | Analysis_analyzeArticle i => analysisAPI.analyzeArticle i
  | Analysis_getStats => analysisAPI.getStats
  | Analysis_getTrendingTopics d => analysisAPI.getTrendingTopics d
  | Analysis_getRecent => analysisAPI.getRecent
  | Analysis_getControversial => analysisAPI.getControversial
  | Profile_getProfile => profileAPI.getProfile
  | Profile_updateProfile d => profileAPI.updateProfile d
  | Profile_getStats => profileAPI.getStats
  | Profile_changePassword d => profileAPI.changePassword d
  end.

(** ** React state setters *)

(** [setUser] of [AuthProvider]. *)
Definition setUser (u : option User) : M unit :=
  modify (with_auth (fun a => {| user := u; authLoading := authLoading a |})).

(** [setArticles(prev => f(prev))]: the functional form of the setter. *)
Definition updateArticles (f : list NewsArticle -> list NewsArticle) : M unit :=
  modify (with_app (fun s =>
    {| articles := f (articles s);
       categories := categories s;
       selectedAnalysis := selectedAnalysis s;
       isLoading := isLoading s;
       isFetchingNews := isFetchingNews s;
       isAnalyzing := isAnalyzing s;
       analyzingArticleId := analyzingArticleId s;
       error := error s;
       selectedCategory := selectedCategory s;
       isAuthModalOpen := isAuthModalOpen s |})).

Definition setArticles (v : list NewsArticle) : M unit :=
  updateArticles (fun _ => v).

Definition setCategories (v : list NewsCategory) : M unit :=
  modify (with_app (fun s =>
    {| articles := articles s;
       categories := v;
       selectedAnalysis := selectedAnalysis s;
       isLoading := isLoading s;
       isFetchingNews := isFetchingNews s;
       isAnalyzing := isAnalyzing s;
       analyzingArticleId := analyzingArticleId s;
       error := error s;
       selectedCategory := selectedCategory s;
       isAuthModalOpen := isAuthModalOpen s |})).

Definition setSelectedAnalysis (v : option SentimentAnalysis) : M unit :=
  modify (with_app (fun s =>
    {| articles := articles s;
       categories := categories s;
       selectedAnalysis := v;
       isLoading := isLoading s;
       isFetchingNews := isFetchingNews s;
       isAnalyzing := isAnalyzing s;
       analyzingArticleId := analyzingArticleId s;
       error := error s;
       selectedCategory := selectedCategory s;
       isAuthModalOpen := isAuthModalOpen s |})).

Definition setIsLoading (v : bool) : M unit :=
  modify (with_app (fun s =>
    {| articles := articles s;
       categories := categories s;
       selectedAnalysis := selectedAnalysis s;
       isLoading := v;
       isFetchingNews := isFetchingNews s;
       isAnalyzing := isAnalyzing s;
       analyzingArticleId := analyzingArticleId s;
       error := error s;
       selectedCategory := selectedCategory s;
       isAuthModalOpen := isAuthModalOpen s |})).

Definition setIsFetchingNews (v : bool) : M unit :=
  modify (with_app (fun s =>
    {| articles := articles s;
       categories := categories s;
       selectedAnalysis := selectedAnalysis s;
       isLoading := isLoading s;
       isFetchingNews := v;
       isAnalyzing := isAnalyzing s;
       analyzingArticleId := analyzingArticleId s;
       error := error s;
       selectedCategory := selectedCategory s;
       isAuthModalOpen := isAuthModalOpen s |})).

Definition setIsAnalyzing (v : bool) : M unit :=
  modify (with_app (fun s =>
    {| articles := articles s;
       categories := categories s;
       selectedAnalysis := selectedAnalysis s;
       isLoading := isLoading s;
       isFetchingNews := isFetchingNews s;
       isAnalyzing := v;
       analyzingArticleId := analyzingArticleId s;
       error := error s;
       selectedCategory := selectedCategory s;
       isAuthModalOpen := isAuthModalOpen s |})).

Definition setAnalyzingArticleId (v : option Z) : M unit :=
  modify (with_app (fun s =>
    {| articles := articles s;
       categories := categories s;
       selectedAnalysis := selectedAnalysis s;
       isLoading := isLoading s;
       isFetchingNews := isFetchingNews s;
       isAnalyzing := isAnalyzing s;
       analyzingArticleId := v;
       error := error s;
       selectedCategory := selectedCategory s;
       isAuthModalOpen := isAuthModalOpen s |})).

Definition setError (v : option string) : M unit :=
  modify (with_app (fun s =>
    {| articles := articles s;
       categories := categories s;
       selectedAnalysis := selectedAnalysis s;
       isLoading := isLoading s;
       isFetchingNews := isFetchingNews s;
       isAnalyzing := isAnalyzing s;
       analyzingArticleId := analyzingArticleId s;
       error := v;
       selectedCategory := selectedCategory s;
       isAuthModalOpen := isAuthModalOpen s |})).

Definition setIsAuthModalOpen (v : bool) : M unit :=
  modify (with_app (fun s =>
    {| articles := articles s;
       categories := categories s;
       selectedAnalysis := selectedAnalysis s;
       isLoading := isLoading s;
       isFetchingNews := isFetchingNews s;
       isAnalyzing := isAnalyzing s;
       analyzingArticleId := analyzingArticleId s;
       error := error s;
       selectedCategory := selectedCategory s;
       isAuthModalOpen := v |})).

Definition setSelectedCategory (v : option string) : M unit :=
  modify (with_app (fun s =>
    {| articles := articles s;
       categories := categories s;
       selectedAnalysis := selectedAnalysis s;
       isLoading := isLoading s;
       isFetchingNews := isFetchingNews s;
       isAnalyzing := isAnalyzing s;
       analyzingArticleId := analyzingArticleId s;
       error := error s;
       selectedCategory := v;
       isAuthModalOpen := isAuthModalOpen s |})).

(** [setIsLoading] of [AuthProvider]. *)
Definition setAuthLoading (v : bool) : M unit :=
  modify (with_auth (fun a => {| user := user a; authLoading := v |})).

(** ** [AuthProvider] ([contexts/AuthContext.tsx]) *)

Module AuthProvider.

(** [logout]: the server is told, a failure is only logged, and the local
    session is cleared on both paths. *)
Definition logout : M unit :=
  finally
    (try_catch
       (authAPI.logout ;;; ret tt)
       (fun _ => console_error "Logout error:"))
    (setUser None ;;; localStorage_removeItem "user").

(** [isAuthenticated: !!user] *)
Definition isAuthenticated (w : World) : bool :=
  match user (auth w) with
  | Some _ => true
  | None => false
  end.

(** [response.data] of the current-user endpoint, at type [User | null].
    A body that is not a user has no value at that type and is read as
    null. *)
Definition read_current_user (d : Body) : option User :=
  match d with
  | BodyUser u => Some u
  | _ => None
  end.

(** [checkAuthStatus]: the session is asked for; a failure clears the user
    and the stored entry; the loading flag is dropped on both paths. *)
Definition checkAuthStatus : M unit :=
  finally
    (try_catch
       (response <- authAPI.getCurrentUser ;;
        setUser (read_current_user (response_data response)))
       (fun _ => setUser None ;;; localStorage_removeItem "user"))
    (setAuthLoading false).

(** [data.user]: undefined when the body has no such property. *)
Definition read_user (d : Body) : M (option User) :=
  match d with
  | BodyAuth u => ret (Some u)
  | BodyNull => throw (ETypeError "Cannot read properties of null")
  | _ => ret None
  end.

Section Session.

(** [JSON.stringify] on a user object. *)
Variable JSON_stringify : User -> string.

(** What [localStorage.setItem('user', JSON.stringify(u))] stores:
    [JSON.stringify(undefined)] is undefined, which [setItem] turns into
    the string [undefined]. *)
Definition stored_user (u : option User) : string :=
  match u with
  | Some u => JSON_stringify u
  | None => "undefined"
  end.

(** What [login] and [register] do with the response. *)
Definition open_session (response : AxiosResponse) : M unit :=
  u <- read_user (response_data response) ;;
  setUser u ;;;
  u' <- read_user (response_data response) ;;
  localStorage_setItem "user" (stored_user u').

(** [login]: an error is thrown again as it is. *)
Definition login (username password : string) : M unit :=
  try_catch
    (response <- authAPI.login username password ;; open_session response)
    (fun e => throw e).

(** [register]: an error is thrown again as it is. *)
Definition register (userData : RegisterData) : M unit :=
  try_catch
    (response <- authAPI.register userData ;; open_session response)
    (fun e => throw e).

End Session.

End AuthProvider.

(** ** [AppContent] *)

(** [Promise.all([a, b])]: both calls are started; the result is the pair
    of their values, or the rejection of the first that fails. *)
Definition Promise_all2 {A B} (a : M A) (b : M B) : M (A * B) :=
  fun w =>
    match a w with
    | (ra, w1) =>
        match b w1 with
        | (rb, w2) =>
            match ra, rb with
            | Returned x, Returned y => (Returned (x, y), w2)
            | Thrown e, _ => (Thrown e, w2)
            | _, Thrown e => (Thrown e, w2)
            end
        end
    end.

(** Reading a property of a JSON [null] throws. *)
Definition null_read {A} : M A :=
  throw (ETypeError "Cannot read properties of null").

(** [data.results || data], at type [NewsArticle[]].  A body that is not a
    list of articles has no value at that type and is read as no article. *)
Definition read_articles (d : Body) : M (list NewsArticle) :=
  match d with
  | BodyPage results => ret results
  | BodyArticles l => ret l
  | BodyNull => null_read
  | _ => ret []
  end.

(** [data || []], at type [NewsCategory[]].  A body that is not a list of
    categories is read as no category. *)
Definition read_categories (d : Body) : list NewsCategory :=
  match d with
  | BodyCategories l => l
  | _ => []
  end.

(** [data.analysis]: undefined when the body has no such property. *)
Definition read_analysis (d : Body) : M (option SentimentAnalysis) :=
  match d with
  | BodyAnalysis a => ret (Some a)
  | BodyNull => null_read
  | _ => ret None
  end.

(** [data.created_count]: undefined when the body has no such property. *)
Definition read_created_count (d : Body) : M (option Z) :=
  match d with
  | BodyCreated n => ret (Some n)
  | BodyNull => null_read
  | _ => ret None
  end.

(** [n > 0], where undefined compares as false. *)
Definition gt_zero (n : option Z) : bool :=
  match n with
  | Some z => (0 <? z)%Z
  | None => false
  end.

(** [{ ...a, has_analysis: true }] *)
Definition mark_analyzed (a : NewsArticle) : NewsArticle :=
  {| id := id a; title := title a; description := description a;
     content := content a; url := url a; url_to_image := url_to_image a;
     author := author a; source_name := source_name a;
     category_name := category_name a; category_slug := category_slug a;
     published_at := published_at a; has_analysis := true |}.

Module AppContent.

Definition page_of_20 : ArticleQuery :=
  {| q_category := None; q_search := None; q_page := None; q_page_size := Some 20%Z |}.

Definition loadInitialData : M unit :=
  setIsLoading true ;;;
  setError None ;;;
  finally
    (try_catch
       (rs <- Promise_all2 (newsAPI.getArticles (Some page_of_20))
                           newsAPI.getCategoriesWithCounts ;;
        l <- read_articles (response_data (fst rs)) ;;
        setArticles l ;;;
        setCategories (read_categories (response_data (snd rs))))
       (fun _ =>
          setError (Some "Failed to load news data. Please try again.") ;;;
          console_error "Error loading initial data:"))
    (setIsLoading false).

Definition handleAnalyzeArticle (article : NewsArticle) : M unit :=
  w <- get_world ;;
  match user (auth w) with
  | None => setIsAuthModalOpen true
  | Some _ =>
      setIsAnalyzing true ;;;
      setAnalyzingArticleId (Some (id article)) ;;;
      setError None ;;;
      finally
        (try_catch
           (response <- analysisAPI.analyzeArticle (id article) ;;
            analysis <- read_analysis (response_data response) ;;
            setSelectedAnalysis analysis ;;;
            updateArticles (fun prev =>
              map (fun a => if (id a =? id article)%Z then mark_analyzed a else a) prev))
           (fun _ =>
              setError (Some "Failed to analyze article. Please try again.") ;;;
              console_error "Error analyzing article:"))
        (setIsAnalyzing false ;;; setAnalyzingArticleId None)
  end.

Definition handleRefresh : M unit := loadInitialData.

Definition handleFetchNews : M unit :=
  w <- get_world ;;
  match user (auth w) with
  | None => setIsAuthModalOpen true
  | Some _ =>
      setIsFetchingNews true ;;;
      setError None ;;;
      finally
        (try_catch
           (response <- newsAPI.fetchLatest None (Some 50%Z) ;;
            created_count <- read_created_count (response_data response) ;;
            if gt_zero created_count
            then loadInitialData
            else setError (Some "No new articles were fetched. The database might already be up to date."))
           (fun _ =>
              setError (Some "Failed to fetch news. Please ensure you have a valid NEWS_API_KEY configured.") ;;;
              console_error "Error fetching news:"))
        (setIsFetchingNews false)
  end.

(** The query of [handleSearch]: [{ search: query, page_size: 20 }] *)
Definition search_query (query : string) : ArticleQuery :=
  {| q_category := None; q_search := Some query; q_page := None;
     q_page_size := Some 20%Z |}.

(** A blank query reloads the initial data; any other is searched for. *)
Definition handleSearch (query : string) : M unit :=
  if negb (JS.truthy (Some (JS.trim query)))
  then loadInitialData
  else
    setIsLoading true ;;;
    finally
      (try_catch
         (response <- newsAPI.getArticles (Some (search_query query)) ;;
          l <- read_articles (response_data response) ;;
          setArticles l)
         (fun _ =>
            setError (Some "Search failed. Please try again.") ;;;
            console_error "Error searching articles:"))
      (setIsLoading false).

(** [category || undefined]: null and the empty string give undefined. *)
Definition category_or_undefined (category : option string) : option string :=
  if JS.truthy category then category else None.

(** The query of [handleCategoryFilter]:
    [{ category: category || undefined, page_size: 20 }] *)
Definition category_query (category : option string) : ArticleQuery :=
  {| q_category := category_or_undefined category; q_search := None;
     q_page := None; q_page_size := Some 20%Z |}.

Definition handleCategoryFilter (category : option string) : M unit :=
  setSelectedCategory category ;;;
  setIsLoading true ;;;
  finally
    (try_catch
       (response <- newsAPI.getArticles (Some (category_query category)) ;;
        l <- read_articles (response_data response) ;;
        setArticles l)
       (fun _ =>
          setError (Some "Failed to filter articles. Please try again.") ;;;
          console_error "Error filtering articles:"))
    (setIsLoading false).

Definition handleLogout : M unit :=
  try_catch
    (AuthProvider.logout ;;; setSelectedAnalysis None)
    (fun _ => console_error "Logout error:").

Definition handleOpenAuthModal : M unit := setIsAuthModalOpen true.

(** The paths of the [Route] elements inside [Routes]. *)
Definition routes : list string := ["/"].

End AppContent.

(** ** [AnalysisDashboard]: the data of the sentiment chart *)

Record Slice := {
  slice_name : string;
  slice_value : Z;
  slice_color : string
}.

(** Each sentiment field is shown as [Math.round(field * 100)] percent. *)
Definition sentimentData (analysis : SentimentAnalysis) : list Slice :=
  [ {| slice_name := "Positive";
       slice_value := JS.Math_round (positive_sentiment analysis * 100);
       slice_color := "#10b981" |};
    {| slice_name := "Negative";
       slice_value := JS.Math_round (negative_sentiment analysis * 100);
       slice_color := "#ef4444" |};
    {| slice_name := "Neutral";
       slice_value := JS.Math_round (neutral_sentiment analysis * 100);
       slice_color := "#6b7280" |} ].

(** What the dashboard shows: a spinner while loading, a placeholder when
    no analysis is selected, the charts otherwise. *)
Inductive View :=
| Spinner
| NoAnalysisSelected
| Charts (sentiment : list Slice).

Definition AnalysisDashboard (analysis : option SentimentAnalysis) (isLoading : bool) : View :=
  if isLoading then Spinner
  else match analysis with
       | None => NoAnalysisSelected
       | Some a => Charts (sentimentData a)
       end.

(** A bar of the topics chart. *)
Record TopicBar := {
  topic : string;
  topic_value : Z
}.

(** The label of a topic: [topic.replace('_', ' ')] with every word
    capitalized. *)
Definition topic_label (t : string) : string :=
  JS.capitalize_words (JS.replace_first "_" " " t).

Definition topic_bar (entry : string * Q) : TopicBar :=
  {| topic := topic_label (fst entry);
     topic_value := JS.Math_round (snd entry * 100) |}.

(** Insertion of a bar into bars sorted by decreasing value: the bar goes
    before the first one that is not greater. *)
Fixpoint insert_bar (x : TopicBar) (l : list TopicBar) : list TopicBar :=
  match l with
  | [] => [x]
  | y :: l' =>
      if (topic_value x <? topic_value y)%Z then y :: insert_bar x l'
      else x :: y :: l'
  end.

(** [bars.sort((a, b) => b.value - a.value)]: the sort is stable, so bars
    of equal value keep their order. *)
Definition sort_bars (l : list TopicBar) : list TopicBar :=
  foldr insert_bar [] l.

(** The five most relevant topics, the [Object.entries] of the topic
    distribution being given in their order. *)
Definition topicsData (analysis : SentimentAnalysis) : list TopicBar :=
  take 5 (sort_bars (topic_bar <$> topic_distribution analysis)).

(** The percentages of a breakdown, added up. *)
Definition breakdown_total (l : list Slice) : Z :=
  foldr (fun s acc => (slice_value s + acc)%Z) 0%Z l.

(** The sum of the three sentiment fields of an analysis. *)
Definition sentiment_sum (a : SentimentAnalysis) : Q :=
  positive_sentiment a + negative_sentiment a + neutral_sentiment a.

(** ** Ingestion *)

Module Ingestion.

(** An item as returned by the News Provider. *)
Record ProviderItem := {
  item_title : string;
  item_description : string;
  item_content : string;
  item_url : string;
  item_image : string;
  item_author : string;
  item_source : string;
  item_published_at : string
}.

(** An article row of the store. *)
Record ArticleRow := {
  row_title : string;
  row_description : string;
  row_content : string;
  row_url : string;
  row_image : string;
  row_author : string;
  row_source : string;
  row_category : option string;
  row_published_at : string
}.

(** The part of the relational store ingestion writes to. *)
Record Storage := {
  sources : list string;
  stored_categories : list string;
  article_rows : list ArticleRow
}.

Definition urls (st : Storage) : list string := row_url <$> article_rows st.

(** Modelled from the spec: the Source and the Category of an item are
    resolved by name, and created when no row of that name exists (the
    backend's [news/services.py] is not part of the sources at hand). *)
Definition resolve_or_create (name : string) (rows : list string) : list string :=
  if bool_decide (name ∈ rows) then rows else rows ++ [name].

Definition row_of_item (category : option string) (it : ProviderItem) : ArticleRow :=
  {| row_title := item_title it;
     row_description := item_description it;
     row_content := item_content it;
     row_url := item_url it;
     row_image := item_image it;
     row_author := item_author it;
     row_source := item_source it;
     row_category := category;
     row_published_at := item_published_at it |}.

(** Modelled from the spec: the per-item step of ingestion of section 4.1
    (the backend's [NewsAPIService.fetch_and_store_articles] is not part of
    the sources at hand).  The Source and Category are resolved or created,
    and the article is inserted unless a row with the same canonical URL
    exists.  The flag tells whether a row was created. *)
Definition store_item (category : option string) (it : ProviderItem) (st : Storage)
    : bool * Storage :=
  let srcs := resolve_or_create (item_source it) (sources st) in
  let cats := match category with
              | Some c => resolve_or_create c (stored_categories st)
              | None => stored_categories st
              end in
  if bool_decide (item_url it ∈ urls st)
  then (false, {| sources := srcs; stored_categories := cats;
                  article_rows := article_rows st |})
  else (true, {| sources := srcs; stored_categories := cats;
                 article_rows := article_rows st ++ [row_of_item category it] |}).

(** Modelled from the spec: the items are stored one after the other and
    the newly created rows are counted. *)
Fixpoint store_items (category : option string) (items : list ProviderItem)
    (st : Storage) : nat * Storage :=
  match items with
  | [] => (0, st)
  | it :: rest =>
      let '(created, st1) := store_item category it st in
      let '(n, st2) := store_items category rest st1 in
      ((if created then 1 else 0) + n, st2)
  end.

(** Modelled from the spec: ingestion of section 4.1, given the items the
    News Provider returned for the call: at most [max_articles] of them are
    stored and the count of newly created rows is returned. *)
Definition fetch_and_store_articles (category : option string) (max_articles : nat)
    (provider_items : list ProviderItem) (st : Storage) : nat * Storage :=
  store_items category (take max_articles provider_items) st.

(** An item is known to the store when its URL, its source and the
    category of the call all have a row. *)
Definition known (category : option string) (it : ProviderItem) (st : Storage) : Prop :=
  item_url it ∈ urls st ∧ item_source it ∈ sources st ∧
  match category with Some c => c ∈ stored_categories st | None => True end.

End Ingestion.

(** ** Notions used in the statements *)

(** [strip_prefix p s] is what follows [p] in [s], when [s] starts with [p]. *)
Fixpoint strip_prefix (p s : string) : option string :=
  match p, s with
  | EmptyString, _ => Some s
  | String a p', String b s' =>
      if Ascii.eqb a b then strip_prefix p' s' else None
  | String _ _, EmptyString => None
  end.

(** The value of the [csrftoken] cookie: what follows [csrftoken=] in the
    first entry of [document.cookie] of that name; [None] when there is no
    such entry. *)
Definition csrftoken_cookie (cookie : string) : option string :=
  match List.find (fun row => JS.startsWith row "csrftoken=") (JS.split cookie "; ") with
  | Some row => strip_prefix "csrftoken=" row
  | None => None
  end.

(** The part of a string before its first [=] (all of it when it has none). *)
Fixpoint before_eq (s : string) : string :=
  match s with
  | EmptyString => EmptyString
  | String c s' =>
      if Ascii.eqb c "="%char then EmptyString else String c (before_eq s')
  end.

(** Whether a string contains the character [=]. *)
Fixpoint has_eq (s : string) : bool :=
  match s with
  | EmptyString => false
  | String c s' => Ascii.eqb c "="%char || has_eq s'
  end.

(** What the 401 branch of the response interceptor does to the browser. *)
Definition on_unauthorized (b : Browser) : Browser :=
  {| document_cookie := document_cookie b;
     localStorage := delete "user" (localStorage b);
     location_href := "/login";
     console := console b |}.

(** The request of [analysisAPI.analyzeArticle(article.id)] in world [w]. *)
Definition analyze_request (article : NewsArticle) (w : World) : Request :=
  outgoing POST "/analysis/analyses/analyze_article/"
    (Some [("article_id", VNum (id article))]) no_config w.

(** The request of [newsAPI.fetchLatest(undefined, 50)] in world [w]. *)
Definition fetch_request (w : World) : Request :=
  outgoing POST "/news/articles/fetch_latest/"
    (Some (newsAPI.fetchLatest_body None (Some 50%Z))) no_config w.

(** The two requests of [loadInitialData] in world [w]. *)
Definition articles_request (w : World) : Request :=
  outgoing GET "/news/articles/" None
    (params_config (Some (article_query_fields AppContent.page_of_20))) w.

Definition categories_request (w : World) : Request :=
  outgoing GET "/news/articles/categories_with_counts/" None no_config w.

(** An analyze request fails when its promise is rejected, or when the body
    of the response is a JSON [null], which cannot be read. *)
Definition analyze_fails (r : Reply) : Prop :=
  match r with
  | HttpReply resp => validateStatus (status resp) = false ∨ response_data resp = BodyNull
  | NoReply _ => True
  end.

(** Two articles agree on every field except, possibly, [has_analysis]. *)
Definition same_but_has_analysis (a a' : NewsArticle) : Prop :=
  id a' = id a ∧ title a' = title a ∧ description a' = description a ∧
  content a' = content a ∧ url a' = url a ∧ url_to_image a' = url_to_image a ∧
  author a' = author a ∧ source_name a' = source_name a ∧
  category_name a' = category_name a ∧ category_slug a' = category_slug a ∧
  published_at a' = published_at a.

(** *** Sample values *)

(** A cookie string as Django sets it: a session cookie and a CSRF token. *)
Definition django_cookies : string := "sessionid=s3ss10n; csrftoken=abc123".

Definition sample_profile : UserProfile :=
  {| bio := ""; avatar := None; location := ""; website := None;
     email_notifications := false; total_analyses_created := 0;
     last_analysis_date := None |}.

Definition demo_user : User :=
  {| user_id := 1; username := "demo_user"; first_name := "Demo";
     last_name := "User"; email := "demo@example.com";
     profile := sample_profile |}.

Definition sample_article (n : Z) (analyzed : bool) : NewsArticle :=
  {| id := n; title := "Headline"; description := "Summary";
     content := None; url := "https://example.com/" +:+ pretty n;
     url_to_image := None; author := None; source_name := "CNN";
     category_name := Some "Politics"; category_slug := Some "politics";
     published_at := "2024-01-01T00:00:00Z"; has_analysis := analyzed |}.

Definition sample_analysis (p n u : Q) : SentimentAnalysis :=
  {| analysis_id := 1; article := sample_article 1 true;
     political_bias := "center"; bias_confidence_score := 8 # 10;
     bias_reasoning := "Balanced wording";
     positive_sentiment := p; negative_sentiment := n; neutral_sentiment := u;
     overall_sentiment_score := 1 # 4; primary_topics := ["politics"];
     topic_distribution := [("politics", 1 # 1)]; key_themes := [];
     emotional_tone := "neutral"; controversy_level := 3 # 10;
     bias_score_normalized := 0; created_at := "2024-01-01T00:00:00Z" |}.

Definition empty_app : AppState :=
  {| articles := []; categories := []; selectedAnalysis := None;
     isLoading := false; isFetchingNews := false; isAnalyzing := false;
     analyzingArticleId := None; error := None; selectedCategory := None;
     isAuthModalOpen := false |}.

(** A browser holding the given cookie string and a stored user. *)
Definition sample_browser (cookie : string) : Browser :=
  {| document_cookie := cookie;
     localStorage := {[ "user" := "demo_user" ]};
     location_href := "/";
     console := [] |}.

(** A world where [demo_user] is signed in, the list shows [arts], and the
    server gives the same reply to every request. *)
Definition sample_world (cookie : string) (reply : Reply) (arts : list NewsArticle) : World :=
  {| browser := sample_browser cookie;
     server := fun _ _ => reply;
     sent := [];
     auth := {| user := Some demo_user; authLoading := false |};
     app := {| articles := arts; categories := []; selectedAnalysis := None;
               isLoading := false; isFetchingNews := false; isAnalyzing := false;
               analyzingArticleId := None; error := None; selectedCategory := None;
               isAuthModalOpen := false |} |}.

Definition reply_with (s : Z) (d : Body) : Reply :=
  HttpReply {| status := s; response_data := d |}.

(** A server that answers by endpoint: the fetch reports [created] new rows,
    the article list is [arts], every other endpoint has no category. *)
Definition sample_server (created : Z) (arts : list NewsArticle)
    : list Request -> Request -> Reply :=
  fun _ r =>
    if String.eqb (req_url r) "/news/articles/fetch_latest/"
    then reply_with 200 (BodyCreated created)
    else if String.eqb (req_url r) "/news/articles/"
    then reply_with 200 (BodyPage arts)
    else reply_with 200 (BodyCategories []).

(** A world where [demo_user] is signed in, nothing is displayed yet, and
    the backend is [sample_server]. *)
Definition backend_world (created : Z) (arts : list NewsArticle) : World :=
  {| browser := sample_browser django_cookies;
     server := sample_server created arts;
     sent := [];
     auth := {| user := Some demo_user; authLoading := false |};
     app := empty_app |}.

Definition sample_item (u src : string) : Ingestion.ProviderItem :=
  {| Ingestion.item_title := "Headline";
     Ingestion.item_description := "Summary";
     Ingestion.item_content := "Text";
     Ingestion.item_url := u;
     Ingestion.item_image := "";
     Ingestion.item_author := "Staff";
     Ingestion.item_source := src;
     Ingestion.item_published_at := "2024-01-01T00:00:00Z" |}.

(** A store holding one article of CNN. *)
Definition sample_storage : Ingestion.Storage :=
  {| Ingestion.sources := ["CNN"];
     Ingestion.stored_categories := ["politics"];
     Ingestion.article_rows :=
       [Ingestion.row_of_item (Some "politics") (sample_item "https://cnn.com/a" "CNN")] |}.

(** What the provider returns: a stored article, a new one, and the new one
    again. *)
Definition sample_items : list Ingestion.ProviderItem :=
  [ sample_item "https://cnn.com/a" "CNN";
    sample_item "https://bbc.com/b" "BBC";
    sample_item "https://bbc.com/b" "BBC" ].

(** *** Notions used in the further properties *)

(** The promise of a call is rejected: an error status, or no reply. *)
Definition call_rejects (r : Reply) : Prop :=
  match r with
  | HttpReply resp => validateStatus (status resp) = false
  | NoReply _ => True
  end.

(** A call fails for the code that reads its response: the promise is
    rejected, or the body is a JSON [null], whose properties cannot be
    read. *)
Definition call_fails (r : Reply) : Prop :=
  match r with
  | HttpReply resp => validateStatus (status resp) = false ∨ response_data resp = BodyNull
  | NoReply _ => True
  end.

(** A call is answered with a list of articles, paginated or plain. *)
Definition answers_articles (r : Reply) (l : list NewsArticle) : Prop :=
  ∃ resp, r = HttpReply resp ∧ validateStatus (status resp) = true ∧
          (response_data resp = BodyPage l ∨ response_data resp = BodyArticles l).

(** The reply is not a 401. *)
Definition not_unauthorized (r : Reply) : Prop :=
  match r with
  | HttpReply resp => status resp ≠ 401%Z
  | NoReply _ => True
  end.

(** The request of [handleSearch(query)] in world [w]. *)
Definition search_request (query : string) (w : World) : Request :=
  outgoing GET "/news/articles/" None
    (params_config (Some (article_query_fields (AppContent.search_query query)))) w.

(** The request of [handleCategoryFilter(category)] in world [w]. *)
Definition filter_request (category : option string) (w : World) : Request :=
  outgoing GET "/news/articles/" None
    (params_config (Some (article_query_fields (AppContent.category_query category)))) w.

(** The requests of [login], [logout] and [checkAuthStatus] in world [w]. *)
Definition login_request (username password : string) (w : World) : Request :=
  outgoing POST "/auth/login/"
    (Some [("username", VStr username); ("password", VStr password)]) no_config w.

Definition logout_request (w : World) : Request :=
  outgoing POST "/auth/logout/" None no_config w.

Definition current_user_request (w : World) : Request :=
  outgoing GET "/auth/user/" None no_config w.

(** A string of white space only. *)
Fixpoint blank (s : string) : bool :=
  match s with
  | EmptyString => true
  | String c s' => JS.is_whitespace c && blank s'
  end.

(** Whether a string contains a given character, and how often. *)
Fixpoint has_char (x : ascii) (s : string) : bool :=
  match s with
  | EmptyString => false
  | String c s' => Ascii.eqb c x || has_char x s'
  end.

Fixpoint count_char (x : ascii) (s : string) : nat :=
  match s with
  | EmptyString => 0
  | String c s' => (if Ascii.eqb c x then 1 else 0) + count_char x s'
  end.

(** [document.cookie] for a jar of cookies: the [name=value] entries
    joined by a semicolon and a space. *)
Definition cookie_row (c : string * string) : string := fst c +:+ "=" +:+ snd c.

Definition cookie_string (jar : list (string * string)) : string :=
  JS.join (cookie_row <$> jar) "; ".

(** The value of the first cookie of a jar with the given name. *)
Fixpoint jar_lookup (name : string) (jar : list (string * string)) : option string :=
  match jar with
  | [] => None
  | (n, v) :: rest => if String.eqb n name then Some v else jar_lookup name rest
  end.

(** Names and values without semicolon, and names without equals sign. *)
Definition cookie_ok (c : string * string) : Prop :=
  has_char ";" (fst c) = false ∧ has_char "=" (fst c) = false ∧
  has_char ";" (snd c) = false.

(** A bar is at least as relevant as another. *)
Definition by_value_desc (a b : TopicBar) : Prop := (topic_value b <= topic_value a)%Z.

(** A stand-in for [JSON.stringify] in examples. *)
Definition sample_stringify (u : User) : string := "user:" +:+ username u.

(** A world with the given cookies, server and displayed list, [demo_user]
    signed in, and an error and a selection left from earlier. *)
Definition busy_world (srv : list Request -> Request -> Reply) (arts : list NewsArticle)
    : World :=
  {| browser := sample_browser django_cookies;
     server := srv;
     sent := [];
     auth := {| user := Some demo_user; authLoading := false |};
     app := {| articles := arts; categories := [];
               selectedAnalysis := Some (sample_analysis (4 # 10) (15 # 100) (45 # 100));
               isLoading := false; isFetchingNews := false; isAnalyzing := false;
               analyzingArticleId := None; error := Some "Earlier error";
               selectedCategory := None; isAuthModalOpen := false |} |}.

(** The same world with nobody signed in. *)
Definition signed_out_world (reply : Reply) (arts : list NewsArticle) : World :=
  {| browser := sample_browser django_cookies;
     server := fun _ _ => reply;
     sent := [];
     auth := {| user := None; authLoading := true |};
     app := {| articles := arts; categories := []; selectedAnalysis := None;
               isLoading := false; isFetchingNews := false; isAnalyzing := false;
               analyzingArticleId := None; error := None; selectedCategory := None;
               isAuthModalOpen := false |} |}.

(** ** The API client *)

(** The request interceptor touches the headers only. *)
Lemma request_interceptor_frame cookie config :
  let r := request_interceptor cookie config in
  method r = method config ∧ req_url r = req_url config ∧
  baseURL r = baseURL config ∧ data r = data config ∧
  params r = params config ∧ timeout r = timeout config ∧
  withCredentials r = withCredentials config.
Proof.
  unfold request_interceptor. destruct (JS.truthy _); cbn; tauto.
Qed.

(** One call through the client, run to its end: one request leaves, and
    the reply decides between the response, a rejection, and a rejection
    after the 401 side effects. *)
Lemma apiClient_request_run m u body c w :
  apiClient_request m u body c w =
    let r := outgoing m u body c w in
    let w1 := with_sent (fun l => l ++ [r]) w in
    match server w (sent w) r with
    | HttpReply resp =>
        if validateStatus (status resp) then (Returned resp, w1)
        else (Thrown (EAxios {| response := Some resp; error_code := "ERR_BAD_RESPONSE" |}),
              if (status resp =? 401)%Z then with_browser on_unauthorized w1 else w1)
    | NoReply code =>
        (Thrown (EAxios {| response := None; error_code := code |}), w1)
    end.
Proof.
  unfold apiClient_request, bind, get_world, try_catch, dispatch, bind, get_world,
    modify, response_interceptor, response_interceptor_error, ret, throw. cbn.
  destruct (server w (sent w) (outgoing m u body c w)) as [resp|code]; cbn; [|done].
  destruct (validateStatus (status resp)); cbn; [done|].
  destruct (status resp =? 401)%Z; cbn; done.
Qed.

(** The same, for a call made in a world [w1] that agrees with a reference
    world on the server, the requests sent and the cookies. *)
Lemma apiClient_request_run_at m u body c w1 srv snt cookie :
  server w1 = srv → sent w1 = snt → document_cookie (browser w1) = cookie →
  apiClient_request m u body c w1 =
    let r := request_interceptor cookie (mergeConfig apiClient_defaults m u body c) in
    let w2 := with_sent (fun l => l ++ [r]) w1 in
    match srv snt r with
    | HttpReply resp =>
        if validateStatus (status resp) then (Returned resp, w2)
        else (Thrown (EAxios {| response := Some resp; error_code := "ERR_BAD_RESPONSE" |}),
              if (status resp =? 401)%Z then with_browser on_unauthorized w2 else w2)
    | NoReply code =>
        (Thrown (EAxios {| response := None; error_code := code |}), w2)
    end.
Proof.
  intros <- <- <-. by rewrite apiClient_request_run.
Qed.

(** Case analysis on the reply to a call: answered and accepted, answered
    with a 401, answered with another error status, or not answered. *)
Ltac reply_cases R :=
  let resp := fresh "resp" in
  let code := fresh "code" in
  destruct R as [resp|code];
    [ destruct (validateStatus (status resp));
      [ | destruct (status resp =? 401)%Z ] | ].

(** Exactly one request leaves the client per call. *)
Lemma apiClient_request_sent m u body c w :
  sent (snd (apiClient_request m u body c w)) = sent w ++ [outgoing m u body c w].
Proof.
  rewrite apiClient_request_run. cbn.
  destruct (server _ _ _) as [resp|code]; [|done].
  destruct (validateStatus _); [done|].
  destruct (_ =? _)%Z; done.
Qed.

(** Every API method is one call of the client with a per-call config that
    leaves the timeout, the credentials flag and the headers out. *)
Lemma invoke_shape (c : ApiCall) :
  ∃ m u body cfg,
    cfg_timeout cfg = None ∧ cfg_withCredentials cfg = None ∧
    cfg_headers cfg = ∅ ∧
    invoke c = apiClient_request m u body cfg.
Proof.
  destruct c; cbn [invoke];
    unfold authAPI.login, authAPI.register, authAPI.logout, authAPI.getCurrentUser,
      authAPI.getDashboard, newsAPI.getArticles, newsAPI.getArticle,
      newsAPI.getCategories, newsAPI.getCategoriesWithCounts, newsAPI.getTrending,
      newsAPI.markAsRead, newsAPI.fetchLatest, analysisAPI.getAnalyses,
      analysisAPI.getAnalysis, analysisAPI.analyzeArticle, analysisAPI.getStats,
      analysisAPI.getTrendingTopics, analysisAPI.getRecent,
      analysisAPI.getControversial, profileAPI.getProfile,
      profileAPI.updateProfile, profileAPI.getStats, profileAPI.changePassword,
      apiClient_get, apiClient_post, apiClient_patch;
    do 4 eexists; (split; [|split; [|split; [|reflexivity]]]); done.
Qed.

Lemma invoke_sent (c : ApiCall) (w : World) :
  ∃ m u body cfg,
    cfg_timeout cfg = None ∧ cfg_withCredentials cfg = None ∧
    cfg_headers cfg = ∅ ∧
    sent (snd (invoke c w)) = sent w ++ [outgoing m u body cfg w].
Proof.
  destruct (invoke_shape c) as (m & u & body & cfg & Ht & Hc & Hh & ->).
  exists m, u, body, cfg. by rewrite apiClient_request_sent.
Qed.

(** C6: every request issued through the API client, whatever the method
    of [authAPI], [newsAPI], [analysisAPI] or [profileAPI] and whatever its
    arguments, carries the one timeout of 120000 milliseconds: each call
    sends exactly one request, and its timeout is set and equal to 120000. *)
Theorem client_timeout_fixed (c : ApiCall) (w : World) :
  ∃ r, sent (snd (invoke c w)) = sent w ++ [r] ∧ timeout r = Some 120000%Z.
Proof.
  destruct (invoke_sent c w) as (m & u & body & cfg & Ht & _ & _ & Hs).
  eexists. split; [exact Hs|].
  unfold outgoing.
  destruct (request_interceptor_frame (document_cookie (browser w))
              (mergeConfig apiClient_defaults m u body cfg)) as (_ & _ & _ & _ & _ & -> & _).
  cbn. by rewrite Ht.
Qed.

(** *** The CSRF token *)

Lemma string_app_nil_r (s : string) : s +:+ "" = s.
Proof.
  induction s as [|c s IH]; [done|].
  change (String c s +:+ "") with (String c (s +:+ "")). by rewrite IH.
Qed.

Lemma string_app_snoc (s : string) (c : ascii) (t : string) :
  (s +:+ String c "") +:+ t = s +:+ String c t.
Proof.
  induction s as [|d s IH]; [done|].
  change ((String d s +:+ String c "") +:+ t) with (String d ((s +:+ String c "") +:+ t)).
  by rewrite IH.
Qed.

Lemma startsWith_strip (p s : string) :
  JS.startsWith s p = true → ∃ v, s = p +:+ v ∧ strip_prefix p s = Some v.
Proof.
  revert s. induction p as [|a p IH]; intros s H.
  - by exists s.
  - destruct s as [|b s]; [done|]. cbn in H |- *.
    destruct (Ascii.eqb_spec a b) as [->|]; [|done].
    destruct (IH s H) as (v & -> & Hv). by exists v.
Qed.

(** The first piece of a split at [=] is what precedes the first [=]. *)
Lemma split_from_eq_head (v cur : string) :
  JS.split_from "=" 0 cur v !! 0%nat = Some (cur +:+ before_eq v).
Proof.
  revert cur. induction v as [|c v IH]; intros cur.
  - cbn. by rewrite string_app_nil_r.
  - change (JS.split_from "=" 0 cur (String c v))
      with (if Ascii.eqb "="%char c && true
            then cur :: JS.split_from "=" 0 "" v
            else JS.split_from "=" 0 (cur +:+ String c "") v).
    change (before_eq (String c v))
      with (if Ascii.eqb c "="%char then "" else String c (before_eq v)).
    rewrite (Ascii.eqb_sym "="%char c).
    destruct (Ascii.eqb c "="%char); cbn [andb].
    + cbn. by rewrite string_app_nil_r.
    + by rewrite IH, string_app_snoc.
Qed.

Lemma split_csrf_row (v : string) :
  JS.split ("csrftoken=" +:+ v) "=" = "csrftoken" :: JS.split_from "=" 0 "" v.
Proof. reflexivity. Qed.

(** The token the interceptor reads is the cookie value cut at its first [=]. *)
Lemma csrfToken_cut (cookie : string) :
  csrfToken cookie = before_eq <$> csrftoken_cookie cookie.
Proof.
  unfold csrfToken, csrftoken_cookie.
  destruct (List.find _ _) as [row|] eqn:Hfind; [|done].
  apply List.find_some in Hfind as [_ Hp].
  destruct (startsWith_strip _ _ Hp) as (v & -> & ->).
  rewrite split_csrf_row. exact (split_from_eq_head v "").
Qed.

Lemma before_eq_no_eq (v : string) : has_eq v = false → before_eq v = v.
Proof.
  induction v as [|c v IH]; cbn; [done|].
  destruct (Ascii.eqb c "="); cbn; [done|]. intros H. by rewrite IH.
Qed.

(** The CSRF header of a request whose per-call config sets no header. *)
Lemma outgoing_csrf_header m u body cfg w :
  cfg_headers cfg = ∅ →
  headers (outgoing m u body cfg w) !! "X-CSRFToken" =
    match csrftoken_cookie (document_cookie (browser w)) with
    | Some v => if String.eqb (before_eq v) "" then None else Some (before_eq v)
    | None => None
    end.
Proof.
  intros Hh. unfold outgoing, request_interceptor. rewrite csrfToken_cut.
  destruct (csrftoken_cookie _) as [v|]; cbn.
  - destruct (String.eqb (before_eq v) ""); cbn.
    + rewrite Hh. by vm_compute.
    + by rewrite lookup_insert_eq.
  - rewrite Hh. by vm_compute.
Qed.

(** Every request sent through the API client includes cookies
    ([withCredentials] is true).  Its [X-CSRFToken] header is what the
    interceptor reads from the [csrftoken] cookie: the header equals the
    cookie's value whenever the value is not empty and contains no [=],
    and the header is not set when there is no such cookie. *)
Theorem client_credentials_and_csrf (c : ApiCall) (w : World) :
  ∃ r, sent (snd (invoke c w)) = sent w ++ [r] ∧
       withCredentials r = true ∧
       headers r !! "X-CSRFToken" =
         match csrftoken_cookie (document_cookie (browser w)) with
         | Some v => if String.eqb (before_eq v) "" then None else Some (before_eq v)
         | None => None
         end ∧
       (∀ v, csrftoken_cookie (document_cookie (browser w)) = Some v →
             v ≠ "" → has_eq v = false →
             headers r !! "X-CSRFToken" = Some v).
Proof.
  destruct (invoke_sent c w) as (m & u & body & cfg & _ & Hc & Hh & Hs).
  eexists. split; [exact Hs|].
  pose proof (outgoing_csrf_header m u body cfg w Hh) as Hhdr.
  split; [|split; [exact Hhdr|]].
  - unfold outgoing.
    destruct (request_interceptor_frame (document_cookie (browser w))
                (mergeConfig apiClient_defaults m u body cfg)) as (_ & _ & _ & _ & _ & _ & ->).
    cbn. by rewrite Hc.
  - intros v Hv Hne Hno. rewrite Hhdr, Hv, (before_eq_no_eq v Hno).
    destruct (String.eqb_spec v ""); [done|done].
Qed.

Lemma client_credentials_and_csrf_witness :
  ∃ r, sent (snd (invoke Auth_logout
                    (sample_world django_cookies (reply_with 200 BodyOther) []))) = [r] ∧
       withCredentials r = true ∧
       headers r !! "X-CSRFToken" = Some "abc123".
Proof.
  destruct (client_credentials_and_csrf Auth_logout
              (sample_world django_cookies (reply_with 200 BodyOther) []))
    as (r & Hs & Hc & _ & Hv).
  exists r. split; [exact Hs|]. split; [exact Hc|].
  apply Hv; [reflexivity|discriminate|reflexivity].
Defined.

(** The header is not always the value of the [csrftoken] cookie: for a
    value that contains [=] the header gets the part before it only. *)
Lemma csrf_header_counterexample :
  ¬ (∀ (c : ApiCall) (w : World) (r : Request),
        sent (snd (invoke c w)) = sent w ++ [r] →
        headers r !! "X-CSRFToken" = csrftoken_cookie (document_cookie (browser w))).
Proof.
  intros H.
  pose (w := sample_world "sessionid=s3ss10n; csrftoken=ab=cd" (reply_with 200 BodyOther) []).
  destruct (invoke_sent Auth_logout w) as (m & u & body & cfg & _ & _ & Hh & Hs).
  specialize (H _ _ _ Hs). rewrite (outgoing_csrf_header _ _ _ _ _ Hh) in H.
  vm_compute in H. discriminate.
Qed.


(** An empty cookie value sets no header either. *)
Example csrf_header_empty_value :
  csrftoken_cookie "csrftoken=" = Some "" ∧ csrfToken "csrftoken=" = Some "" ∧
  request_interceptor "csrftoken=" (mergeConfig apiClient_defaults POST "/auth/logout/" None no_config)
    = mergeConfig apiClient_defaults POST "/auth/logout/" None no_config.
Proof. repeat split. Qed.

(** C8: a reply with status 401 to any API call makes the response
    interceptor remove the [user] entry of localStorage and point the
    browser at [/login]; the caller gets the rejection with these effects
    already done.  The router has the single route [/], so no route
    matches [/login]. *)
Theorem unauthorized_clears_session (c : ApiCall) (w : World) (r : Request)
    (resp : AxiosResponse) :
  sent (snd (invoke c w)) = sent w ++ [r] →
  server w (sent w) r = HttpReply resp →
  status resp = 401%Z →
  ∃ e w', invoke c w = (Thrown (EAxios e), w') ∧
          response e = Some resp ∧
          localStorage (browser w') !! "user" = None ∧
          location_href (browser w') = "/login" ∧
          AppContent.routes = ["/"] ∧ "/login" ∉ AppContent.routes.
Proof.
  intros Hs Hr H401.
  destruct (invoke_shape c) as (m & u & body & cfg & _ & _ & _ & Hi).
  rewrite Hi in Hs |- *. rewrite apiClient_request_sent in Hs.
  apply app_inv_head in Hs. injection Hs as Hs. subst r.
  rewrite apiClient_request_run. cbn zeta. rewrite Hr.
  rewrite H401. cbn.
  do 2 eexists. split; [reflexivity|]. cbn.
  split; [done|]. split; [apply lookup_delete_eq|]. split; [done|].
  split; [done|]. unfold AppContent.routes.
  intros Hin. apply list_elem_of_singleton in Hin. discriminate.
Qed.

Lemma unauthorized_clears_session_witness :
  let w := sample_world django_cookies (reply_with 401 BodyOther) [] in
  ∃ e w', invoke Auth_getCurrentUser w = (Thrown (EAxios e), w') ∧
          localStorage (browser w) !! "user" = Some "demo_user" ∧
          localStorage (browser w') !! "user" = None ∧
          location_href (browser w') = "/login".
Proof.
  intros w.
  destruct (invoke_sent Auth_getCurrentUser w) as (m & u & body & cfg & _ & _ & _ & Hs).
  destruct (unauthorized_clears_session Auth_getCurrentUser w _
              (Build_AxiosResponse 401 BodyOther) Hs eq_refl eq_refl)
    as (e & w' & Hi & _ & Hl & Hh & _).
  exists e, w'. split; [exact Hi|]. split; [reflexivity|]. split; [exact Hl|exact Hh].
Defined.

(** C9: [logout] never rejects.  Whatever the server answers to the logout
    request, or if it does not answer, [logout] returns, and then the user
    of the auth context is null, [isAuthenticated] is false and localStorage
    has no [user] entry. *)
Theorem logout_never_rejects (w : World) :
  ∃ w', AuthProvider.logout w = (Returned tt, w') ∧
        user (auth w') = None ∧
        AuthProvider.isAuthenticated w' = false ∧
        localStorage (browser w') !! "user" = None.
Proof.
  unfold AuthProvider.logout, finally, try_catch, bind, authAPI.logout, apiClient_post.
  rewrite apiClient_request_run. cbn zeta.
  destruct (server w (sent w) _) as [resp|code].
  - destruct (validateStatus (status resp)).
    + eexists. split; [reflexivity|]. cbn. repeat split. apply lookup_delete_eq.
    + destruct (status resp =? 401)%Z;
        (eexists; split; [reflexivity|]; cbn; repeat split; apply lookup_delete_eq).
  - eexists. split; [reflexivity|]. cbn. repeat split. apply lookup_delete_eq.
Qed.

(** C10: [newsAPI.fetchLatest] called without [max_articles] sends
    [max_articles = 50] in the request body, and so does a call with
    [max_articles = 0]: the default replaces every falsy value. *)
Theorem fetchLatest_default_max_articles (category : option string) (w : World) :
  ∃ r_omitted r_zero,
    sent (snd (newsAPI.fetchLatest category None w)) = sent w ++ [r_omitted] ∧
    sent (snd (newsAPI.fetchLatest category (Some 0%Z) w)) = sent w ++ [r_zero] ∧
    data r_omitted = Some [("category", opt_str category); ("max_articles", VNum 50)] ∧
    data r_zero = Some [("category", opt_str category); ("max_articles", VNum 50)].
Proof.
  unfold newsAPI.fetchLatest, apiClient_post.
  do 2 eexists. rewrite !apiClient_request_sent.
  split; [reflexivity|]. split; [reflexivity|].
  unfold outgoing.
  split.
  - by destruct (request_interceptor_frame (document_cookie (browser w))
        (mergeConfig apiClient_defaults POST "/news/articles/fetch_latest/"
           (Some (newsAPI.fetchLatest_body category None)) no_config))
      as (_ & _ & _ & -> & _).
  - by destruct (request_interceptor_frame (document_cookie (browser w))
        (mergeConfig apiClient_defaults POST "/news/articles/fetch_latest/"
           (Some (newsAPI.fetchLatest_body category (Some 0%Z))) no_config))
      as (_ & _ & _ & -> & _).
Qed.


(** ** The handlers of [AppContent] *)

(** [loadInitialData] always returns, after asking for the articles and the
    categories, and it leaves the fetching flag alone. *)
Lemma loadInitialData_requests (w0 w : World) :
  server w0 = server w → sent w0 = sent w →
  document_cookie (browser w0) = document_cookie (browser w) →
  fst (AppContent.loadInitialData w0) = Returned tt ∧
  sent (snd (AppContent.loadInitialData w0)) =
    sent w ++ [articles_request w; categories_request w] ∧
  isFetchingNews (app (snd (AppContent.loadInitialData w0))) = isFetchingNews (app w0) ∧
  isLoading (app (snd (AppContent.loadInitialData w0))) = false.
Proof.
  intros Hsrv Hsent Hck.
  unfold AppContent.loadInitialData, finally, try_catch, bind, setIsLoading, setError, modify,
    Promise_all2, newsAPI.getArticles, newsAPI.getCategoriesWithCounts, apiClient_get.
  rewrite (apiClient_request_run_at _ _ _ _ _ (server w) (sent w) (document_cookie (browser w)))
    by assumption.
  cbn zeta.
  change (request_interceptor _ _) with (articles_request w).
  reply_cases (server w (sent w) (articles_request w));
    rewrite (apiClient_request_run_at _ _ _ _ _ (server w) (sent w ++ [articles_request w])
               (document_cookie (browser w))) by (cbn; congruence);
    cbn zeta;
    change (request_interceptor _ _) with (categories_request w);
    reply_cases (server w (sent w ++ [articles_request w]) (categories_request w));
    try match goal with
        | |- context [read_articles (response_data ?r)] => destruct (response_data r)
        end;
    cbn; rewrite Hsent, <- app_assoc; done.
Qed.

(** When both requests of [loadInitialData] are answered and accepted, the
    list shows the articles of the reply. *)
Lemma loadInitialData_loaded (w0 w : World) (r1 r2 : AxiosResponse) (l : list NewsArticle) :
  server w0 = server w → sent w0 = sent w →
  document_cookie (browser w0) = document_cookie (browser w) →
  server w (sent w) (articles_request w) = HttpReply r1 →
  validateStatus (status r1) = true →
  response_data r1 = BodyPage l ∨ response_data r1 = BodyArticles l →
  server w (sent w ++ [articles_request w]) (categories_request w) = HttpReply r2 →
  validateStatus (status r2) = true →
  articles (app (snd (AppContent.loadInitialData w0))) = l ∧
  categories (app (snd (AppContent.loadInitialData w0))) = read_categories (response_data r2) ∧
  error (app (snd (AppContent.loadInitialData w0))) = None.
Proof.
  intros Hsrv Hsent Hck H1 V1 D1 H2 V2.
  unfold AppContent.loadInitialData, finally, try_catch, bind, setIsLoading, setError, modify,
    Promise_all2, newsAPI.getArticles, newsAPI.getCategoriesWithCounts, apiClient_get.
  rewrite (apiClient_request_run_at _ _ _ _ _ (server w) (sent w) (document_cookie (browser w)))
    by assumption.
  cbn zeta.
  change (request_interceptor _ _) with (articles_request w).
  rewrite H1, V1.
  rewrite (apiClient_request_run_at _ _ _ _ _ (server w) (sent w ++ [articles_request w])
             (document_cookie (browser w))) by (cbn; congruence).
  cbn zeta.
  change (request_interceptor _ _) with (categories_request w).
  rewrite H2, V2.
  destruct D1 as [D1|D1]; cbn; rewrite D1; cbn; done.
Qed.

(** C3 (amended): when the analyze request of a signed-in user is rejected
    (an error status, or no reply), or the body of its response is null and
    cannot be read, the handler returns having set the one error message,
    logged once, sent the one request and no other, left the selected
    analysis and the article list (hence every [has_analysis] flag) as they
    were, and reset the analyzing flags to idle.  Nothing is said of an
    accepted response with another body. *)
Theorem analyze_failure_reported (article : NewsArticle) (w : World) (u : User) :
  user (auth w) = Some u →
  analyze_fails (server w (sent w) (analyze_request article w)) →
  ∃ w', AppContent.handleAnalyzeArticle article w = (Returned tt, w') ∧
        error (app w') = Some "Failed to analyze article. Please try again." ∧
        console (browser w') = console (browser w) ++ ["Error analyzing article:"] ∧
        sent w' = sent w ++ [analyze_request article w] ∧
        selectedAnalysis (app w') = selectedAnalysis (app w) ∧
        articles (app w') = articles (app w) ∧
        has_analysis <$> articles (app w') = has_analysis <$> articles (app w) ∧
        isAnalyzing (app w') = false ∧
        analyzingArticleId (app w') = None.
Proof.
  intros Hu Hfail.
  unfold AppContent.handleAnalyzeArticle, bind at 1, get_world. rewrite Hu.
  unfold finally, try_catch, bind, setIsAnalyzing, setAnalyzingArticleId, setError, modify,
    analysisAPI.analyzeArticle, apiClient_post.
  rewrite (apiClient_request_run_at _ _ _ _ _ (server w) (sent w) (document_cookie (browser w)))
    by reflexivity.
  cbn zeta.
  change (request_interceptor _ _) with (analyze_request article w).
  destruct (server w (sent w) (analyze_request article w)) as [resp|code].
  - destruct Hfail as [Hv|Hd].
    + rewrite Hv.
      destruct (status resp =? 401)%Z; (eexists; split; [reflexivity|]; cbn; repeat split).
    + destruct (validateStatus (status resp)).
      * rewrite Hd. eexists; split; [reflexivity|]; cbn; repeat split.
      * destruct (status resp =? 401)%Z; (eexists; split; [reflexivity|]; cbn; repeat split).
  - eexists; split; [reflexivity|]; cbn; repeat split.
Qed.

Lemma analyze_failure_reported_witness :
  let a := sample_article 7 false in
  let w := sample_world django_cookies (reply_with 500 BodyOther) [a; sample_article 8 true] in
  ∃ w', AppContent.handleAnalyzeArticle a w = (Returned tt, w') ∧
        error (app w') = Some "Failed to analyze article. Please try again." ∧
        sent w' = [analyze_request a w] ∧
        articles (app w') = [a; sample_article 8 true].
Proof.
  intros a w.
  destruct (analyze_failure_reported a w demo_user eq_refl (or_introl eq_refl))
    as (w' & Hrun & Herr & _ & Hsent & _ & Harts & _).
  exists w'. split; [exact Hrun|]. split; [exact Herr|]. split; [exact Hsent|exact Harts].
Defined.

Lemma mark_analyzed_same (a : NewsArticle) :
  same_but_has_analysis a (mark_analyzed a) ∧ has_analysis (mark_analyzed a) = true.
Proof. unfold same_but_has_analysis. cbn. tauto. Qed.

Lemma same_but_has_analysis_refl (a : NewsArticle) : same_but_has_analysis a a.
Proof. unfold same_but_has_analysis. tauto. Qed.

(** C4: on a successful analyze response for an article, the selected
    analysis becomes the returned one, and in the displayed list exactly
    the entries whose id is the article's get [has_analysis] set to true:
    every entry keeps its position and all its other fields, and the
    entries with another id are unchanged. *)
Theorem analyze_success_marks_article (article : NewsArticle) (w : World) (u : User)
    (resp : AxiosResponse) (analysis : SentimentAnalysis) :
  user (auth w) = Some u →
  server w (sent w) (analyze_request article w) = HttpReply resp →
  validateStatus (status resp) = true →
  response_data resp = BodyAnalysis analysis →
  ∃ w', AppContent.handleAnalyzeArticle article w = (Returned tt, w') ∧
        selectedAnalysis (app w') = Some analysis ∧
        length (articles (app w')) = length (articles (app w)) ∧
        (∀ i a, articles (app w) !! i = Some a →
           ∃ a', articles (app w') !! i = Some a' ∧
                 same_but_has_analysis a a' ∧
                 (id a = id article → has_analysis a' = true) ∧
                 (id a ≠ id article → a' = a)) ∧
        categories (app w') = categories (app w) ∧
        selectedCategory (app w') = selectedCategory (app w).
Proof.
  intros Hu Hr Hv Hd.
  unfold AppContent.handleAnalyzeArticle, bind at 1, get_world. rewrite Hu.
  unfold finally, try_catch, bind, setIsAnalyzing, setAnalyzingArticleId, setError, modify,
    analysisAPI.analyzeArticle, apiClient_post.
  rewrite (apiClient_request_run_at _ _ _ _ _ (server w) (sent w) (document_cookie (browser w)))
    by reflexivity.
  cbn zeta.
  change (request_interceptor _ _) with (analyze_request article w).
  rewrite Hr, Hv, Hd.
  eexists. split; [reflexivity|]. cbn.
  split; [done|]. split; [by rewrite length_map|]. split; [|done].
  intros i a Hi. rewrite list_lookup_fmap, Hi. cbn.
  destruct (Z.eqb_spec (id a) (id article)) as [Heq|Hne].
  - exists (mark_analyzed a). split; [done|].
    destruct (mark_analyzed_same a) as [Hs Ht]. by repeat split.
  - exists a. split; [done|]. split; [apply same_but_has_analysis_refl|]. by split.
Qed.

Lemma analyze_success_marks_article_witness :
  let a := sample_article 7 false in
  let b := sample_article 8 false in
  let an := sample_analysis (4 # 10) (15 # 100) (45 # 100) in
  let w := sample_world django_cookies (reply_with 200 (BodyAnalysis an)) [a; b] in
  ∃ w', AppContent.handleAnalyzeArticle a w = (Returned tt, w') ∧
        selectedAnalysis (app w') = Some an ∧
        articles (app w') = [sample_article 7 true; b].
Proof.
  intros a b an w.
  destruct (analyze_success_marks_article a w demo_user
              {| status := 200; response_data := BodyAnalysis an |} an
              eq_refl eq_refl eq_refl eq_refl)
    as (w' & Hrun & Hsel & _).
  exists w'. split; [exact Hrun|]. split; [exact Hsel|].
  apply (f_equal snd) in Hrun. cbn [snd] in Hrun. by rewrite <- Hrun.
Defined.

(** A 2xx reply whose body has no [analysis] property is not a failure for
    the handler: the selection is cleared, the article is marked, and no
    error is shown. *)
Example analyze_body_without_analysis :
  let a := sample_article 7 false in
  let w := sample_world django_cookies (reply_with 200 BodyOther) [a] in
  let w' := snd (AppContent.handleAnalyzeArticle a w) in
  selectedAnalysis (app w') = None ∧
  articles (app w') = [sample_article 7 true] ∧
  error (app w') = None.
Proof. repeat split. Qed.

(** A malformed response that is accepted is not reported.  The server
    answers the analyze request with status 200 and a body without
    [analysis]; an analysis is selected and the article is not analyzed
    before the call.  After the call no error is shown, the selection is
    gone and the article is marked as analyzed; the one request was sent and
    the analyzing flags are idle. *)
Lemma analyze_malformed_not_reported :
  let a := sample_article 7 false in
  let w := busy_world (fun _ _ => reply_with 200 BodyOther) [a; sample_article 8 false] in
  let w' := snd (AppContent.handleAnalyzeArticle a w) in
  server w (sent w) (analyze_request a w) = reply_with 200 BodyOther ∧
  fst (AppContent.handleAnalyzeArticle a w) = Returned tt ∧
  sent w' = [analyze_request a w] ∧
  error (app w') = None ∧
  error (app w') ≠ Some "Failed to analyze article. Please try again." ∧
  selectedAnalysis (app w) = Some (sample_analysis (4 # 10) (15 # 100) (45 # 100)) ∧
  selectedAnalysis (app w') = None ∧
  has_analysis <$> articles (app w) = [false; false] ∧
  has_analysis <$> articles (app w') = [true; false] ∧
  isAnalyzing (app w') = false ∧ analyzingArticleId (app w') = None.
Proof. repeat split. intros H. cbn in H. discriminate. Qed.

(** C5: after a successful fetch-latest call of a signed-in user the
    handler looks at [created_count].  When it is greater than zero the
    article list is reloaded from the backend: the articles and the
    categories are requested, and the list shows the articles of the reply.
    When it is zero nothing is requested again, the list is left alone, and
    the error message tells that no new article was fetched. *)
Theorem fetch_news_reloads_or_notifies (w : World) (u : User) (resp : AxiosResponse) (n : Z) :
  user (auth w) = Some u →
  server w (sent w) (fetch_request w) = HttpReply resp →
  validateStatus (status resp) = true →
  response_data resp = BodyCreated n →
  ∃ w', AppContent.handleFetchNews w = (Returned tt, w') ∧
        isFetchingNews (app w') = false ∧
        ((0 < n)%Z →
           sent w' = sent w ++ [fetch_request w; articles_request w; categories_request w] ∧
           ∀ r1 r2 l,
             server w (sent w ++ [fetch_request w]) (articles_request w) = HttpReply r1 →
             validateStatus (status r1) = true →
             response_data r1 = BodyPage l ∨ response_data r1 = BodyArticles l →
             server w (sent w ++ [fetch_request w; articles_request w]) (categories_request w)
               = HttpReply r2 →
             validateStatus (status r2) = true →
             articles (app w') = l ∧ error (app w') = None) ∧
        (n = 0%Z →
           sent w' = sent w ++ [fetch_request w] ∧
           articles (app w') = articles (app w) ∧
           error (app w') =
             Some "No new articles were fetched. The database might already be up to date.").
Proof.
  intros Hu Hr Hv Hd.
  unfold AppContent.handleFetchNews, bind at 1, get_world. rewrite Hu.
  unfold finally, try_catch, bind, setIsFetchingNews, setError, modify,
    newsAPI.fetchLatest, apiClient_post.
  rewrite (apiClient_request_run_at _ _ _ _ _ (server w) (sent w) (document_cookie (browser w)))
    by reflexivity.
  cbn zeta.
  change (request_interceptor _ _) with (fetch_request w).
  rewrite Hr, Hv, Hd. cbn [read_created_count ret gt_zero].
  destruct (0 <? n)%Z eqn:Hpos.
  - match goal with
    | |- context [AppContent.loadInitialData ?W] => set (w1 := W)
    end.
    pose (wr := with_sent (fun l => l ++ [fetch_request w]) w).
    destruct (loadInitialData_requests w1 wr eq_refl eq_refl eq_refl)
      as (Hret & Hsent & _ & _).
    pose proof (loadInitialData_loaded w1 wr) as Hload.
    destruct (AppContent.loadInitialData w1) as [r w2]. cbn [fst snd] in *. subst r.
    eexists. split; [reflexivity|]. cbn.
    split; [done|]. split; [|intros ->; done].
    intros _. split.
    + rewrite Hsent. cbn. by rewrite <- app_assoc.
    + intros r1 r2 l H1 V1 D1 H2 V2.
      destruct (Hload r1 r2 l eq_refl eq_refl eq_refl H1 V1 D1) as (Ha & _ & He); [|done..].
      cbn. by rewrite <- app_assoc.
  - apply Z.ltb_ge in Hpos.
    eexists. split; [reflexivity|]. cbn.
    split; [done|]. split; [intros; lia|]. done.
Qed.

(** ** Ingestion is idempotent by URL *)

Module IngestionFacts.
Import Ingestion.

Lemma resolve_or_create_elem (name : string) (rows : list string) :
  name ∈ resolve_or_create name rows.
Proof.
  unfold resolve_or_create. case_bool_decide; [done|].
  apply elem_of_app. right. by apply list_elem_of_singleton.
Qed.

Lemma resolve_or_create_mono (name x : string) (rows : list string) :
  x ∈ rows → x ∈ resolve_or_create name rows.
Proof.
  intros Hx. unfold resolve_or_create. case_bool_decide; [done|].
  apply elem_of_app. by left.
Qed.

Lemma resolve_or_create_known (name : string) (rows : list string) :
  name ∈ rows → resolve_or_create name rows = rows.
Proof. intros Hx. unfold resolve_or_create. by rewrite bool_decide_eq_true_2. Qed.

(** What [store_item] does to the article rows. *)
Lemma store_item_rows category it st :
  article_rows (snd (store_item category it st)) =
    article_rows st ++
      (if fst (store_item category it st) then [row_of_item category it] else []) ∧
  fst (store_item category it st) = negb (bool_decide (item_url it ∈ urls st)).
Proof.
  unfold store_item. case_bool_decide; cbn; [by rewrite app_nil_r|done].
Qed.

Lemma store_item_known category it st :
  known category it (snd (store_item category it st)).
Proof.
  unfold known, store_item, urls.
  case_bool_decide as Hu; cbn.
  - split; [done|]. split; [apply resolve_or_create_elem|].
    destruct category; [apply resolve_or_create_elem|done].
  - split; [|split; [apply resolve_or_create_elem|]].
    + rewrite fmap_app. apply elem_of_app. right. cbn. by apply list_elem_of_singleton.
    + destruct category; [apply resolve_or_create_elem|done].
Qed.

Lemma store_item_keeps_known category it it' st :
  known category it' st → known category it' (snd (store_item category it st)).
Proof.
  unfold known, store_item, urls. intros (Hu & Hs & Hc).
  case_bool_decide; cbn.
  - split; [done|]. split; [by apply resolve_or_create_mono|].
    destruct category; [by apply resolve_or_create_mono|done].
  - split; [rewrite fmap_app; apply elem_of_app; by left|].
    split; [by apply resolve_or_create_mono|].
    destruct category; [by apply resolve_or_create_mono|done].
Qed.

Lemma store_item_noop category it st :
  known category it st → store_item category it st = (false, st).
Proof.
  intros (Hu & Hs & Hc). unfold store_item.
  rewrite bool_decide_eq_true_2 by done.
  rewrite resolve_or_create_known by done.
  destruct st as [srcs cats rows]; cbn in *.
  destruct category; [by rewrite resolve_or_create_known|done].
Qed.

Lemma store_items_keeps_known category items it' st :
  known category it' st → known category it' (snd (store_items category items st)).
Proof.
  revert st. induction items as [|it rest IH]; intros st Hk; cbn; [done|].
  pose proof (store_item_keeps_known category it it' st Hk) as Hk1.
  destruct (store_item category it st) as [created st1]. cbn in Hk1.
  specialize (IH st1 Hk1).
  destruct (store_items category rest st1) as [n st2]. done.
Qed.

Lemma store_items_known category items st :
  Forall (fun it => known category it (snd (store_items category items st))) items.
Proof.
  revert st. induction items as [|it rest IH]; intros st; cbn; [constructor|].
  pose proof (store_item_known category it st) as Hk.
  destruct (store_item category it st) as [created st1]. cbn in Hk.
  specialize (IH st1).
  pose proof (store_items_keeps_known category rest it st1 Hk) as Hk2.
  destruct (store_items category rest st1) as [n st2]. cbn in *.
  by constructor.
Qed.

Lemma store_items_noop category items st :
  Forall (fun it => known category it st) items →
  store_items category items st = (0, st).
Proof.
  induction 1 as [|it rest Hk _ IH]; cbn; [done|].
  by rewrite (store_item_noop _ _ _ Hk), IH.
Qed.

(** The rows created by a run: they are appended, they are as many as the
    count returned, none has a URL that was stored before, and the URLs
    stay pairwise distinct. *)
Lemma store_items_rows category items st :
  NoDup (urls st) →
  ∃ new, article_rows (snd (store_items category items st)) = article_rows st ++ new ∧
         length new = fst (store_items category items st) ∧
         (∀ row, row ∈ new → row_url row ∉ urls st) ∧
         NoDup (urls (snd (store_items category items st))).
Proof.
  revert st. induction items as [|it rest IH]; intros st Hnd; cbn.
  - exists []. rewrite app_nil_r. repeat split; [|done]. intros row Hr. by apply elem_of_nil in Hr.
  - destruct (store_item_rows category it st) as [Hrows Hfst].
    destruct (store_item category it st) as [created st1] eqn:Hst. cbn in Hrows, Hfst.
    assert (Hnd1 : NoDup (urls st1)).
    { unfold urls. rewrite Hrows, fmap_app. apply NoDup_app. split; [done|].
      destruct created; cbn.
      - split; [|apply NoDup_singleton].
        intros x Hx Hx'. apply list_elem_of_singleton in Hx'. subst x.
        symmetry in Hfst. apply negb_true_iff, bool_decide_eq_false in Hfst. done.
      - split; [|constructor]. intros x _ Hx'. by apply elem_of_nil in Hx'. }
    destruct (IH st1 Hnd1) as (new & Hnew & Hlen & Hfresh & Hnd2).
    destruct (store_items category rest st1) as [n st2]. cbn in *.
    exists ((if created then [row_of_item category it] else []) ++ new).
    split; [by rewrite Hnew, Hrows, app_assoc|].
    split; [rewrite length_app, Hlen; by destruct created|].
    split; [|done].
    intros row Hr Hin. apply elem_of_app in Hr as [Hr|Hr].
    + destruct created; [|by apply elem_of_nil in Hr].
      apply list_elem_of_singleton in Hr. subst row. cbn in Hin.
      symmetry in Hfst. apply negb_true_iff, bool_decide_eq_false in Hfst. done.
    + apply (Hfresh row Hr). unfold urls. rewrite Hrows, fmap_app.
      apply elem_of_app. by left.
Qed.


(** C1: ingestion is idempotent by canonical URL.  In a store whose article
    URLs are pairwise distinct: the rows a run creates are as many as the
    count it returns and none of them has a URL that was stored before, so
    an item whose URL exists creates no row; running ingestion again on the
    same input creates nothing and leaves the store as the first run left
    it; and the URLs stay pairwise distinct. *)
Theorem ingestion_idempotent_by_url (category : option string) (max_articles : nat)
    (provider_items : list ProviderItem) (st : Storage) :
  NoDup (urls st) →
  let run := fetch_and_store_articles category max_articles provider_items st in
  (∃ new, article_rows (snd run) = article_rows st ++ new ∧
          length new = fst run ∧
          ∀ row, row ∈ new → row_url row ∉ urls st) ∧
  (∀ it, item_url it ∈ urls st →
         fst (store_item category it st) = false ∧
         article_rows (snd (store_item category it st)) = article_rows st) ∧
  fetch_and_store_articles category max_articles provider_items (snd run) = (0, snd run) ∧
  NoDup (urls (snd run)).
Proof.
  intros Hnd run. unfold run, fetch_and_store_articles.
  destruct (store_items_rows category (take max_articles provider_items) st Hnd)
    as (new & Hnew & Hlen & Hfresh & Hnd').
  split; [by exists new|]. split; [|split; [|done]].
  - intros it Hin. destruct (store_item_rows category it st) as [Hrows Hfst].
    rewrite Hrows, Hfst, bool_decide_eq_true_2 by done. cbn. by rewrite app_nil_r.
  - apply store_items_noop, store_items_known.
Qed.

Lemma ingestion_idempotent_by_url_witness :
  let run := fetch_and_store_articles (Some "politics") 50 sample_items sample_storage in
  fst run = 1 ∧ length (article_rows (snd run)) = 2 ∧
  fetch_and_store_articles (Some "politics") 50 sample_items (snd run) = (0, snd run) ∧
  NoDup (urls (snd run)).
Proof.
  intros run.
  assert (Hnd : NoDup (urls sample_storage)) by (cbn; apply NoDup_singleton).
  destruct (ingestion_idempotent_by_url (Some "politics") 50 sample_items sample_storage Hnd)
    as (_ & _ & Hidem & Hnd').
  split; [reflexivity|]. split; [reflexivity|]. split; [exact Hidem|exact Hnd'].
Defined.

End IngestionFacts.

(** ** The sentiment breakdown *)

(** [Math.round] is within one half of its argument. *)
Lemma Math_round_bounds (x : Q) :
  (inject_Z (JS.Math_round x) <= x + (1 # 2))%Q ∧
  (x + (1 # 2) < inject_Z (JS.Math_round x) + 1)%Q.
Proof.
  unfold JS.Math_round. split; [apply Qfloor_le|].
  pose proof (Qlt_floor (x + (1 # 2))) as H.
  by rewrite inject_Z_plus in H.
Qed.

Lemma fetch_news_reloads_or_notifies_witness :
  let arts := [sample_article 1 false; sample_article 2 false] in
  let w := backend_world 2 arts in
  ∃ w', AppContent.handleFetchNews w = (Returned tt, w') ∧
        sent w' = [fetch_request w; articles_request w; categories_request w] ∧
        articles (app w') = arts ∧ error (app w') = None.
Proof.
  intros arts w.
  destruct (fetch_news_reloads_or_notifies w demo_user
              {| status := 200; response_data := BodyCreated 2 |} 2
              eq_refl eq_refl eq_refl eq_refl)
    as (w' & Hrun & _ & Hpos & _).
  destruct (Hpos eq_refl) as [Hsent Hload].
  destruct (Hload {| status := 200; response_data := BodyPage arts |}
                  {| status := 200; response_data := BodyCategories [] |} arts
                  eq_refl eq_refl (or_introl eq_refl) eq_refl eq_refl) as [Ha He].
  exists w'. split; [exact Hrun|]. split; [exact Hsent|]. split; [exact Ha|exact He].
Defined.

(** With no new row the list is not reloaded. *)
Example fetch_news_nothing_new :
  let w := backend_world 0 [sample_article 1 false] in
  sent (snd (AppContent.handleFetchNews w)) = [fetch_request w] ∧
  articles (app (snd (AppContent.handleFetchNews w))) = [] ∧
  error (app (snd (AppContent.handleFetchNews w))) =
    Some "No new articles were fetched. The database might already be up to date.".
Proof. repeat split. Qed.

(** ** Further properties of the API client *)



(** X2: every request of the client is configured with the one base URL,
    and every request that has a body (login, register, fetch-latest,
    analyze, profile update, password change) carries the JSON content
    type, whatever the cookies are: the CSRF interceptor leaves it in
    place.  Nothing is said of the content type of a request without
    body. *)
Theorem client_base_and_content_type (c : ApiCall) (w : World) :
  ∃ r, sent (snd (invoke c w)) = sent w ++ [r] ∧
       baseURL r = "http://localhost:8000/api" ∧
       (is_Some (data r) → headers r !! "Content-Type" = Some "application/json").
Proof.
  destruct (invoke_sent c w) as (m & u & body & cfg & _ & _ & Hh & Hs).
  eexists. split; [exact Hs|].
  unfold outgoing.
  destruct (request_interceptor_frame (document_cookie (browser w))
              (mergeConfig apiClient_defaults m u body cfg)) as (_ & _ & -> & _).
  split; [done|]. intros _.
  unfold request_interceptor. destruct (JS.truthy _); cbn.
  - rewrite lookup_insert_ne by done. rewrite Hh. by vm_compute.
  - rewrite Hh. by vm_compute.
Qed.

Lemma client_base_and_content_type_witness :
  let w := sample_world django_cookies (reply_with 200 (BodyAuth demo_user)) [] in
  ∃ r, sent (snd (invoke (Auth_login "demo_user" "demo123") w)) = [r] ∧
       data r = Some [("username", VStr "demo_user"); ("password", VStr "demo123")] ∧
       headers r !! "Content-Type" = Some "application/json".
Proof.
  intros w.
  destruct (client_base_and_content_type (Auth_login "demo_user" "demo123") w)
    as (r & Hs & _ & Hct).
  assert (Hr : r = login_request "demo_user" "demo123" w).
  { pose proof Hs as Hs'. cbn [invoke] in Hs'.
    unfold authAPI.login, apiClient_post in Hs'.
    rewrite apiClient_request_sent in Hs'.
    apply app_inv_head in Hs'. by injection Hs'. }
  assert (Hd : data r = Some [("username", VStr "demo_user"); ("password", VStr "demo123")])
    by (rewrite Hr; reflexivity).
  exists r. split; [exact Hs|]. split; [exact Hd|].
  apply Hct. rewrite Hd. by eexists.
Defined.

(** X3: [analysisAPI.getTrendingTopics] asks for 7 days when [days] is
    left out or is 0, and for the given number of days otherwise. *)
Theorem getTrendingTopics_days (days : option Z) (w : World) :
  ∃ r, sent (snd (analysisAPI.getTrendingTopics days w)) = sent w ++ [r] ∧
       params r = Some [("days", VNum (match days with
                                       | Some d => if (d =? 0)%Z then 7 else d
                                       | None => 7
                                       end))] ∧
       (days = None ∨ days = Some 0%Z → params r = Some [("days", VNum 7)]).
Proof.
  unfold analysisAPI.getTrendingTopics, apiClient_get.
  eexists. rewrite apiClient_request_sent. split; [reflexivity|].
  unfold outgoing.
  destruct (request_interceptor_frame (document_cookie (browser w))
              (mergeConfig apiClient_defaults GET "/analysis/analyses/trending_topics/" None
                 (params_config (Some [("days", VNum (JS.num_or days 7))]))))
    as (_ & _ & _ & _ & -> & _).
  split; [done|]. by intros [-> | ->].
Qed.

(** *** Cookies of a jar *)

Lemma string_app_assoc (a b c : string) : (a +:+ b) +:+ c = a +:+ (b +:+ c).
Proof.
  induction a as [|x a IH]; [done|].
  change (String x ((a +:+ b) +:+ c) = String x (a +:+ (b +:+ c))). by rewrite IH.
Qed.

Lemma has_char_app (x : ascii) (a b : string) :
  has_char x (a +:+ b) = has_char x a || has_char x b.
Proof.
  induction a as [|c a IH]; [done|].
  change (has_char x (String c a +:+ b)) with (Ascii.eqb c x || has_char x (a +:+ b)).
  cbn. by rewrite IH, orb_assoc.
Qed.

(** A piece without semicolon is split off whole. *)
Lemma split_from_piece (row cur tail : string) :
  has_char ";" row = false →
  JS.split_from "; " 0 cur row = [cur +:+ row] ∧
  JS.split_from "; " 0 cur (row +:+ "; " +:+ tail) =
    (cur +:+ row) :: JS.split_from "; " 0 "" tail.
Proof.
  revert cur. induction row as [|c row IH]; intros cur Hno.
  - rewrite string_app_nil_r. done.
  - cbn in Hno. apply orb_false_iff in Hno as [Hc Hrow].
    destruct (IH (cur +:+ String c "") Hrow) as [IH1 IH2].
    rewrite string_app_snoc in IH1, IH2.
    split.
    + rewrite <- IH1.
      change (JS.split_from "; " 0 cur (String c row))
        with (if Ascii.eqb ";"%char c && JS.startsWith row " "
              then cur :: JS.split_from "; " 1 "" row
              else JS.split_from "; " 0 (cur +:+ String c "") row).
      by rewrite (Ascii.eqb_sym ";"%char c), Hc.
    + rewrite <- IH2.
      change (JS.split_from "; " 0 cur (String c row +:+ "; " +:+ tail))
        with (if Ascii.eqb ";"%char c && JS.startsWith (row +:+ "; " +:+ tail) " "
              then cur :: JS.split_from "; " 1 "" (row +:+ "; " +:+ tail)
              else JS.split_from "; " 0 (cur +:+ String c "") (row +:+ "; " +:+ tail)).
      by rewrite (Ascii.eqb_sym ";"%char c), Hc.
Qed.

(** Splitting the joined rows gives the rows back. *)
Lemma split_join_rows (rows : list string) :
  rows ≠ [] → Forall (fun row => has_char ";" row = false) rows →
  JS.split (JS.join rows "; ") "; " = rows.
Proof.
  intros Hne Hall. unfold JS.split.
  induction Hall as [|row rest Hrow Hrest IH]; [done|].
  destruct rest as [|row2 rest].
  - cbn [JS.join]. by destruct (split_from_piece row "" "" Hrow) as [-> _].
  - change (JS.join (row :: row2 :: rest) "; ")
      with (row +:+ "; " +:+ JS.join (row2 :: rest) "; ").
    destruct (split_from_piece row "" (JS.join (row2 :: rest) "; ") Hrow) as [_ ->].
    by rewrite IH.
Qed.

Lemma startsWith_named (n p v : string) :
  has_char "=" n = false → has_char "=" p = false →
  JS.startsWith (n +:+ "=" +:+ v) (p +:+ "=") = String.eqb n p.
Proof.
  revert n. induction p as [|a p IH]; intros n Hn Hp.
  - destruct n as [|c n]; [done|].
    cbn in Hn. apply orb_false_iff in Hn as [Hc _].
    change (Ascii.eqb "="%char c && true = false).
    by rewrite (Ascii.eqb_sym "="%char c), Hc.
  - cbn in Hp. apply orb_false_iff in Hp as [Ha Hp].
    destruct n as [|c n].
    + change (Ascii.eqb a "="%char && JS.startsWith v (p +:+ "=") = false).
      by rewrite Ha.
    + cbn in Hn. apply orb_false_iff in Hn as [_ Hn].
      change (Ascii.eqb a c && JS.startsWith (n +:+ "=" +:+ v) (p +:+ "=")
              = Ascii.eqb c a && String.eqb n p).
      by rewrite (IH n Hn Hp), (Ascii.eqb_sym a c).
Qed.

Lemma find_csrf_row (jar : list (string * string)) :
  Forall cookie_ok jar →
  List.find (fun row => JS.startsWith row "csrftoken=") (cookie_row <$> jar) =
    (fun v => "csrftoken=" +:+ v) <$> jar_lookup "csrftoken" jar.
Proof.
  induction 1 as [|[n v] rest (_ & Hn & _) _ IH]; [done|].
  cbn [fmap list_fmap List.find jar_lookup]. unfold cookie_row at 1. cbn [fst snd] in *.
  change "csrftoken=" with ("csrftoken" +:+ "=") at 1.
  rewrite (startsWith_named n "csrftoken" v Hn eq_refl).
  destruct (String.eqb_spec n "csrftoken") as [->|_]; [done|exact IH].
Qed.

Lemma cookie_rows_no_semicolon (jar : list (string * string)) :
  Forall cookie_ok jar →
  Forall (fun row => has_char ";" row = false) (cookie_row <$> jar).
Proof.
  induction 1 as [|[n v] rest (Hn & _ & Hv) _ IH]; constructor; [|done].
  unfold cookie_row. cbn [fst snd] in *. by rewrite !has_char_app, Hn, Hv.
Qed.

(** The [csrftoken] cookie read from [document.cookie] is the first cookie
    of that name in the jar. *)
Lemma csrftoken_cookie_of_jar (jar : list (string * string)) :
  Forall cookie_ok jar →
  csrftoken_cookie (cookie_string jar) = jar_lookup "csrftoken" jar.
Proof.
  intros Hok. unfold csrftoken_cookie, cookie_string.
  destruct jar as [|c jar]; [done|].
  rewrite split_join_rows by (done || by apply cookie_rows_no_semicolon).
  rewrite (find_csrf_row _ Hok).
  by destruct (jar_lookup "csrftoken" (c :: jar)).
Qed.

(** X4: the CSRF header does not depend on where the [csrftoken] cookie
    sits among the cookies.  For cookies whose names and values have no
    semicolon and whose names have no equals sign, the header of every
    request is the value of the first cookie named [csrftoken], cut at its
    first equals sign, and there is no header when there is no such cookie
    or the value is empty. *)
Theorem csrf_header_of_jar (c : ApiCall) (w : World) (jar : list (string * string)) :
  document_cookie (browser w) = cookie_string jar →
  Forall cookie_ok jar →
  ∃ r, sent (snd (invoke c w)) = sent w ++ [r] ∧
       headers r !! "X-CSRFToken" =
         match jar_lookup "csrftoken" jar with
         | Some v => if String.eqb (before_eq v) "" then None else Some (before_eq v)
         | None => None
         end.
Proof.
  intros Hck Hok.
  destruct (invoke_sent c w) as (m & u & body & cfg & _ & _ & Hh & Hs).
  eexists. split; [exact Hs|].
  by rewrite (outgoing_csrf_header m u body cfg w Hh), Hck, csrftoken_cookie_of_jar.
Qed.

Lemma csrf_header_of_jar_witness :
  let jar := [("theme", "dark"); ("csrftoken", "tok3n"); ("sessionid", "s1");
              ("csrftoken", "stale")] in
  let w := sample_world (cookie_string jar) (reply_with 200 BodyOther) [] in
  ∃ r, sent (snd (invoke Auth_logout w)) = [r] ∧
       headers r !! "X-CSRFToken" = Some "tok3n".
Proof.
  intros jar w.
  assert (Hok : Forall cookie_ok jar) by (repeat constructor).
  exact (csrf_header_of_jar Auth_logout w jar eq_refl Hok).
Defined.

(** ** Further properties of [AppContent] *)

(** X5: with nobody signed in, asking for an analysis or for the latest
    news sends no request: both handlers only open the sign-in dialog and
    leave the browser, the session and the rest of the application state
    as they are. *)
Theorem signed_out_opens_dialog (article : NewsArticle) (w : World) :
  user (auth w) = None →
  ∃ w', AppContent.handleAnalyzeArticle article w = (Returned tt, w') ∧
        AppContent.handleFetchNews w = (Returned tt, w') ∧
        isAuthModalOpen (app w') = true ∧
        sent w' = sent w ∧ browser w' = browser w ∧ auth w' = auth w ∧
        articles (app w') = articles (app w) ∧
        selectedAnalysis (app w') = selectedAnalysis (app w) ∧
        error (app w') = error (app w) ∧
        isAnalyzing (app w') = isAnalyzing (app w) ∧
        isFetchingNews (app w') = isFetchingNews (app w).
Proof.
  intros Hu.
  unfold AppContent.handleAnalyzeArticle, AppContent.handleFetchNews, bind, get_world.
  rewrite Hu. eexists. repeat split.
Qed.

Lemma signed_out_opens_dialog_witness :
  let w := signed_out_world (reply_with 200 BodyOther) [sample_article 1 false] in
  ∃ w', AppContent.handleFetchNews w = (Returned tt, w') ∧
        isAuthModalOpen (app w') = true ∧ sent w' = [].
Proof.
  intros w.
  destruct (signed_out_opens_dialog (sample_article 1 false) w eq_refl)
    as (w' & _ & Hf & Hm & Hs & _).
  exists w'. split; [exact Hf|]. split; [exact Hm|exact Hs].
Defined.

(** X6: when the fetch-latest call of a signed-in user fails, the handler
    returns with the message about the news API key, without reloading:
    the fetch is the only request, the list is unchanged, and the fetching
    flag is back to false. *)
Theorem fetch_failure_reported (w : World) (u : User) :
  user (auth w) = Some u →
  call_fails (server w (sent w) (fetch_request w)) →
  ∃ w', AppContent.handleFetchNews w = (Returned tt, w') ∧
        error (app w') =
          Some "Failed to fetch news. Please ensure you have a valid NEWS_API_KEY configured." ∧
        sent w' = sent w ++ [fetch_request w] ∧
        articles (app w') = articles (app w) ∧
        categories (app w') = categories (app w) ∧
        isFetchingNews (app w') = false ∧
        isLoading (app w') = isLoading (app w).
Proof.
  intros Hu Hfail.
  unfold AppContent.handleFetchNews, bind at 1, get_world. rewrite Hu.
  unfold finally, try_catch, bind, setIsFetchingNews, setError, modify,
    newsAPI.fetchLatest, apiClient_post.
  rewrite (apiClient_request_run_at _ _ _ _ _ (server w) (sent w) (document_cookie (browser w)))
    by reflexivity.
  cbn zeta.
  change (request_interceptor _ _) with (fetch_request w).
  destruct (server w (sent w) (fetch_request w)) as [resp|code].
  - destruct Hfail as [Hv|Hd].
    + rewrite Hv.
      destruct (status resp =? 401)%Z; (eexists; split; [reflexivity|]; cbn; repeat split).
    + destruct (validateStatus (status resp)).
      * rewrite Hd. eexists; split; [reflexivity|]; cbn; repeat split.
      * destruct (status resp =? 401)%Z; (eexists; split; [reflexivity|]; cbn; repeat split).
  - eexists; split; [reflexivity|]; cbn; repeat split.
Qed.

Lemma fetch_failure_reported_witness :
  let w := sample_world django_cookies (NoReply "ECONNABORTED") [sample_article 1 false] in
  ∃ w', AppContent.handleFetchNews w = (Returned tt, w') ∧
        sent w' = [fetch_request w] ∧
        articles (app w') = [sample_article 1 false].
Proof.
  intros w.
  destruct (fetch_failure_reported w demo_user eq_refl I)
    as (w' & Hrun & _ & Hs & Ha & _).
  exists w'. split; [exact Hrun|]. split; [exact Hs|exact Ha].
Defined.

(** X7: a successful fetch-latest reply whose body carries no count, or a
    count that is not positive, is handled like a count of zero: nothing is
    reloaded and the message that no new article was fetched is shown. *)
Theorem fetch_without_new_rows (w : World) (u : User) (resp : AxiosResponse) :
  user (auth w) = Some u →
  server w (sent w) (fetch_request w) = HttpReply resp →
  validateStatus (status resp) = true →
  response_data resp ≠ BodyNull →
  (∀ n, response_data resp = BodyCreated n → (n <= 0)%Z) →
  ∃ w', AppContent.handleFetchNews w = (Returned tt, w') ∧
        sent w' = sent w ++ [fetch_request w] ∧
        articles (app w') = articles (app w) ∧
        error (app w') =
          Some "No new articles were fetched. The database might already be up to date." ∧
        isFetchingNews (app w') = false.
Proof.
  intros Hu Hr Hv Hnn Hcount.
  unfold AppContent.handleFetchNews, bind at 1, get_world. rewrite Hu.
  unfold finally, try_catch, bind, setIsFetchingNews, setError, modify,
    newsAPI.fetchLatest, apiClient_post.
  rewrite (apiClient_request_run_at _ _ _ _ _ (server w) (sent w) (document_cookie (browser w)))
    by reflexivity.
  cbn zeta.
  change (request_interceptor _ _) with (fetch_request w).
  rewrite Hr, Hv.
  destruct (response_data resp) as [| | | |n| | | |] eqn:Hd;
    try done; try (eexists; split; [reflexivity|]; cbn; by repeat split).
  cbn [read_created_count ret gt_zero].
  specialize (Hcount n eq_refl). apply Z.ltb_ge in Hcount. rewrite Hcount.
  eexists; split; [reflexivity|]; cbn; by repeat split.
Qed.

Lemma fetch_without_new_rows_witness :
  let w := sample_world django_cookies (reply_with 200 BodyOther) [sample_article 1 false] in
  ∃ w', AppContent.handleFetchNews w = (Returned tt, w') ∧
        sent w' = [fetch_request w] ∧
        error (app w') =
          Some "No new articles were fetched. The database might already be up to date.".
Proof.
  intros w.
  assert (Hnn : BodyOther ≠ BodyNull) by discriminate.
  assert (Hc : ∀ n, BodyOther = BodyCreated n → (n <= 0)%Z) by discriminate.
  destruct (fetch_without_new_rows w demo_user
              {| status := 200; response_data := BodyOther |} eq_refl eq_refl eq_refl Hnn Hc)
    as (w' & Hrun & Hs & _ & He & _).
  exists w'. split; [exact Hrun|]. split; [exact Hs|exact He].
Defined.

(** The case analysis on a reply, for a goal that assumes the call fails. *)
Ltac failing_reply_cases R :=
  let resp := fresh "resp" in
  let code := fresh "code" in
  destruct R as [resp|code]; cbn [call_fails call_rejects];
    [ destruct (validateStatus (status resp));
      [ | destruct (status resp =? 401)%Z ] | ].

(** X8: when [loadInitialData] fails (either of its two requests is
    rejected, or the articles cannot be read), both requests have been
    sent, the lists of articles and categories are kept as they were, the
    error message is set, and the loading flag is back to false. *)
Theorem load_failure_keeps_lists (w : World) :
  call_fails (server w (sent w) (articles_request w)) ∨
  call_rejects (server w (sent w ++ [articles_request w]) (categories_request w)) →
  ∃ w', AppContent.loadInitialData w = (Returned tt, w') ∧
        error (app w') = Some "Failed to load news data. Please try again." ∧
        sent w' = sent w ++ [articles_request w; categories_request w] ∧
        articles (app w') = articles (app w) ∧
        categories (app w') = categories (app w) ∧
        isLoading (app w') = false.
Proof.
  intros Hfail.
  unfold AppContent.loadInitialData, finally, try_catch, bind, setIsLoading, setError, modify,
    Promise_all2, newsAPI.getArticles, newsAPI.getCategoriesWithCounts, apiClient_get.
  rewrite (apiClient_request_run_at _ _ _ _ _ (server w) (sent w) (document_cookie (browser w)))
    by reflexivity.
  cbn zeta.
  change (request_interceptor _ _) with (articles_request w).
  revert Hfail.
  failing_reply_cases (server w (sent w) (articles_request w));
    rewrite (apiClient_request_run_at _ _ _ _ _ (server w) (sent w ++ [articles_request w])
               (document_cookie (browser w))) by reflexivity;
    cbn zeta;
    change (request_interceptor _ _) with (categories_request w);
    failing_reply_cases (server w (sent w ++ [articles_request w]) (categories_request w));
    intros Hfail;
    first
      [ solve [eexists; split; [reflexivity|]; cbn; rewrite <- ?app_assoc; by repeat split]
      | destruct Hfail as [[Hf|Hf]|Hf]; try discriminate Hf; cbn [fst snd]; rewrite Hf;
        eexists; split; [reflexivity|]; cbn; rewrite <- ?app_assoc; by repeat split ].
Qed.

Lemma load_failure_keeps_lists_witness :
  let w := sample_world django_cookies (reply_with 503 BodyOther) [sample_article 1 true] in
  ∃ w', AppContent.loadInitialData w = (Returned tt, w') ∧
        error (app w') = Some "Failed to load news data. Please try again." ∧
        articles (app w') = [sample_article 1 true].
Proof.
  intros w.
  destruct (load_failure_keeps_lists w (or_introl (or_introl eq_refl)))
    as (w' & Hrun & He & _ & Ha & _).
  exists w'. split; [exact Hrun|]. split; [exact He|exact Ha].
Defined.

(** X9: when both requests of [loadInitialData] are answered, the list of
    articles becomes the one of the reply (the [results] of a page, or a
    plain list), the categories become those of the reply, an earlier
    error message is cleared, and the loading flag is back to false. *)
Theorem load_success_replaces_lists (w : World) (l : list NewsArticle)
    (r2 : AxiosResponse) (cs : list NewsCategory) :
  answers_articles (server w (sent w) (articles_request w)) l →
  server w (sent w ++ [articles_request w]) (categories_request w) = HttpReply r2 →
  validateStatus (status r2) = true →
  response_data r2 = BodyCategories cs →
  ∃ w', AppContent.loadInitialData w = (Returned tt, w') ∧
        articles (app w') = l ∧ categories (app w') = cs ∧
        error (app w') = None ∧ isLoading (app w') = false ∧
        sent w' = sent w ++ [articles_request w; categories_request w].
Proof.
  intros (r1 & H1 & V1 & D1) H2 V2 D2.
  destruct (loadInitialData_requests w w eq_refl eq_refl eq_refl) as (Hret & Hsent & _ & Hl).
  destruct (loadInitialData_loaded w w r1 r2 l eq_refl eq_refl eq_refl H1 V1 D1 H2 V2)
    as (Ha & Hc & He).
  destruct (AppContent.loadInitialData w) as [o w']. cbn [fst snd] in *. subst o.
  exists w'. rewrite D2 in Hc. by repeat split.
Qed.

Lemma load_success_replaces_lists_witness :
  let arts := [sample_article 1 false; sample_article 2 true] in
  let w := busy_world (sample_server 0 arts) [] in
  ∃ w', AppContent.loadInitialData w = (Returned tt, w') ∧
        articles (app w') = arts ∧ error (app w') = None.
Proof.
  intros arts w.
  assert (Ha : answers_articles (server w (sent w) (articles_request w)) arts).
  { exists {| status := 200; response_data := BodyPage arts |}.
    split; [reflexivity|]. split; [reflexivity|]. by left. }
  destruct (load_success_replaces_lists w arts
              {| status := 200; response_data := BodyCategories [] |} []
              Ha eq_refl eq_refl eq_refl)
    as (w' & Hrun & Harts & _ & He & _).
  exists w'. split; [exact Hrun|]. split; [exact Harts|exact He].
Defined.

(** *** Searching *)

Lemma trimStart_blank (s : string) : blank s = true → JS.trimStart s = "".
Proof.
  induction s as [|c s IH]; [done|]. cbn. intros [Hc Hs]%andb_true_iff.
  rewrite Hc. by apply IH.
Qed.

Lemma trimStart_not_blank (s : string) :
  blank s = false →
  ∃ c t, JS.trimStart s = String c t ∧ JS.is_whitespace c = false.
Proof.
  induction s as [|c s IH]; [done|]. cbn [blank JS.trimStart].
  destruct (JS.is_whitespace c) eqn:Hc; cbn [andb].
  - apply IH.
  - intros _. by exists c, s.
Qed.

Lemma trimEnd_not_empty (c : ascii) (t : string) :
  JS.is_whitespace c = false → JS.trimEnd (String c t) ≠ "".
Proof.
  intros Hc. cbn [JS.trimEnd]. rewrite Hc. by destruct (JS.trimEnd t).
Qed.

(** A query trims to the empty string exactly when it is blank. *)
Lemma trim_truthy (s : string) : JS.truthy (Some (JS.trim s)) = negb (blank s).
Proof.
  unfold JS.trim. destruct (blank s) eqn:Hb.
  - by rewrite trimStart_blank.
  - destruct (trimStart_not_blank s Hb) as (c & t & -> & Hc).
    pose proof (trimEnd_not_empty c t Hc) as Hne.
    cbn [JS.truthy negb]. by destruct (String.eqb_spec (JS.trimEnd (String c t)) "").
Qed.

(** X10: a search for a blank query (empty, or white space only) is not
    sent to the search endpoint: it is the reload of the initial data. *)
Theorem search_blank_reloads (query : string) (w : World) :
  blank query = true →
  AppContent.handleSearch query w = AppContent.loadInitialData w ∧
  sent (snd (AppContent.handleSearch query w)) =
    sent w ++ [articles_request w; categories_request w].
Proof.
  intros Hb. unfold AppContent.handleSearch. rewrite trim_truthy, Hb. cbn [negb].
  split; [done|].
  by destruct (loadInitialData_requests w w eq_refl eq_refl eq_refl) as (_ & -> & _).
Qed.

Lemma search_blank_reloads_witness :
  let w := sample_world django_cookies (reply_with 200 BodyOther) [] in
  sent (snd (AppContent.handleSearch "   " w)) =
    [articles_request w; categories_request w].
Proof.
  intros w. exact (proj2 (search_blank_reloads "   " w eq_refl)).
Defined.

(** X11: a query that is not blank is sent as typed (it is not trimmed)
    with a page size of 20, in one request; when the reply carries a list
    of articles the list shows them, and an error message left from
    earlier stays on display. *)
Theorem search_shows_results (query : string) (w : World) (l : list NewsArticle) :
  blank query = false →
  answers_articles (server w (sent w) (search_request query w)) l →
  ∃ w', AppContent.handleSearch query w = (Returned tt, w') ∧
        sent w' = sent w ++ [search_request query w] ∧
        params (search_request query w) =
          Some [("category", VUndefined); ("search", VStr query);
                ("page", VUndefined); ("page_size", VNum 20)] ∧
        articles (app w') = l ∧
        error (app w') = error (app w) ∧
        isLoading (app w') = false.
Proof.
  intros Hb (resp & Hr & Hv & Hd).
  unfold AppContent.handleSearch. rewrite trim_truthy, Hb. cbn [negb].
  unfold finally, try_catch, bind, setIsLoading, setError, modify,
    newsAPI.getArticles, apiClient_get.
  rewrite (apiClient_request_run_at _ _ _ _ _ (server w) (sent w) (document_cookie (browser w)))
    by reflexivity.
  cbn zeta.
  change (request_interceptor _ _) with (search_request query w).
  rewrite Hr, Hv.
  assert (Hp : params (search_request query w) =
               Some [("category", VUndefined); ("search", VStr query);
                     ("page", VUndefined); ("page_size", VNum 20)]).
  { unfold search_request, outgoing.
    by destruct (request_interceptor_frame (document_cookie (browser w))
                   (mergeConfig apiClient_defaults GET "/news/articles/" None
                      (params_config (Some (article_query_fields
                                              (AppContent.search_query query))))))
      as (_ & _ & _ & _ & -> & _). }
  destruct Hd as [Hd|Hd]; rewrite Hd;
    (eexists; split; [reflexivity|]; cbn; by repeat split).
Qed.

Lemma search_shows_results_witness :
  let arts := [sample_article 3 false] in
  let w := busy_world (sample_server 0 arts) [sample_article 1 false] in
  ∃ w', AppContent.handleSearch " climate " w = (Returned tt, w') ∧
        articles (app w') = arts ∧ error (app w') = Some "Earlier error".
Proof.
  intros arts w.
  assert (Ha : answers_articles (server w (sent w) (search_request " climate " w)) arts).
  { exists {| status := 200; response_data := BodyPage arts |}.
    split; [reflexivity|]. split; [reflexivity|]. by left. }
  destruct (search_shows_results " climate " w arts eq_refl Ha)
    as (w' & Hrun & _ & _ & Harts & He & _).
  exists w'. split; [exact Hrun|]. split; [exact Harts|exact He].
Defined.

(** X12: when the search for a query that is not blank fails, the list is
    kept as it was, the search error message is shown, no other request is
    sent, and the loading flag is back to false. *)
Theorem search_failure_reported (query : string) (w : World) :
  blank query = false →
  call_fails (server w (sent w) (search_request query w)) →
  ∃ w', AppContent.handleSearch query w = (Returned tt, w') ∧
        error (app w') = Some "Search failed. Please try again." ∧
        sent w' = sent w ++ [search_request query w] ∧
        articles (app w') = articles (app w) ∧
        isLoading (app w') = false.
Proof.
  intros Hb Hfail.
  unfold AppContent.handleSearch. rewrite trim_truthy, Hb. cbn [negb].
  unfold finally, try_catch, bind, setIsLoading, setError, modify,
    newsAPI.getArticles, apiClient_get.
  rewrite (apiClient_request_run_at _ _ _ _ _ (server w) (sent w) (document_cookie (browser w)))
    by reflexivity.
  cbn zeta.
  change (request_interceptor _ _) with (search_request query w).
  revert Hfail.
  failing_reply_cases (server w (sent w) (search_request query w)); intros Hfail;
    first
      [ solve [eexists; split; [reflexivity|]; cbn; by repeat split]
      | destruct Hfail as [Hf|Hf]; try discriminate Hf; rewrite Hf;
        eexists; split; [reflexivity|]; cbn; by repeat split ].
Qed.

Lemma search_failure_reported_witness :
  let w := sample_world django_cookies (reply_with 500 BodyOther) [sample_article 1 false] in
  ∃ w', AppContent.handleSearch "budget" w = (Returned tt, w') ∧
        error (app w') = Some "Search failed. Please try again." ∧
        articles (app w') = [sample_article 1 false].
Proof.
  intros w.
  destruct (search_failure_reported "budget" w eq_refl (or_introl eq_refl))
    as (w' & Hrun & He & _ & Ha & _).
  exists w'. split; [exact Hrun|]. split; [exact He|exact Ha].
Defined.

(** *** Filtering by category *)

(** X13: when the request of a category filter fails, the selected
    category is already the one asked for while the list still shows the
    articles of before; the filter error message is shown and the loading
    flag is back to false. *)
Theorem filter_failure_keeps_list (category : option string) (w : World) :
  call_fails (server w (sent w) (filter_request category w)) →
  ∃ w', AppContent.handleCategoryFilter category w = (Returned tt, w') ∧
        selectedCategory (app w') = category ∧
        articles (app w') = articles (app w) ∧
        error (app w') = Some "Failed to filter articles. Please try again." ∧
        sent w' = sent w ++ [filter_request category w] ∧
        isLoading (app w') = false.
Proof.
  intros Hfail.
  unfold AppContent.handleCategoryFilter, finally, try_catch, bind, setSelectedCategory,
    setIsLoading, setError, modify, newsAPI.getArticles, apiClient_get.
  rewrite (apiClient_request_run_at _ _ _ _ _ (server w) (sent w) (document_cookie (browser w)))
    by reflexivity.
  cbn zeta.
  change (request_interceptor _ _) with (filter_request category w).
  revert Hfail.
  failing_reply_cases (server w (sent w) (filter_request category w)); intros Hfail;
    first
      [ solve [eexists; split; [reflexivity|]; cbn; by repeat split]
      | destruct Hfail as [Hf|Hf]; try discriminate Hf; rewrite Hf;
        eexists; split; [reflexivity|]; cbn; by repeat split ].
Qed.

Lemma filter_failure_keeps_list_witness :
  let w := sample_world django_cookies (NoReply "ERR_NETWORK") [sample_article 1 false] in
  ∃ w', AppContent.handleCategoryFilter (Some "sports") w = (Returned tt, w') ∧
        selectedCategory (app w') = Some "sports" ∧
        articles (app w') = [sample_article 1 false].
Proof.
  intros w.
  destruct (filter_failure_keeps_list (Some "sports") w I)
    as (w' & Hrun & Hc & Ha & _).
  exists w'. split; [exact Hrun|]. split; [exact Hc|exact Ha].
Defined.

(** X14: a category filter is one request for a page of 20 articles of the
    category, where no category and the empty category both ask for all
    categories; when the reply carries a list of articles the list shows
    them and the selected category is the one asked for. *)
Theorem filter_shows_category (category : option string) (w : World) (l : list NewsArticle) :
  answers_articles (server w (sent w) (filter_request category w)) l →
  ∃ w', AppContent.handleCategoryFilter category w = (Returned tt, w') ∧
        sent w' = sent w ++ [filter_request category w] ∧
        params (filter_request category w) =
          Some [("category", match category with
                             | Some c => if String.eqb c "" then VUndefined else VStr c
                             | None => VUndefined
                             end);
                ("search", VUndefined); ("page", VUndefined); ("page_size", VNum 20)] ∧
        articles (app w') = l ∧
        selectedCategory (app w') = category ∧
        isLoading (app w') = false.
Proof.
  intros (resp & Hr & Hv & Hd).
  unfold AppContent.handleCategoryFilter, finally, try_catch, bind, setSelectedCategory,
    setIsLoading, setError, modify, newsAPI.getArticles, apiClient_get.
  rewrite (apiClient_request_run_at _ _ _ _ _ (server w) (sent w) (document_cookie (browser w)))
    by reflexivity.
  cbn zeta.
  change (request_interceptor _ _) with (filter_request category w).
  rewrite Hr, Hv.
  assert (Hp : params (filter_request category w) =
               Some [("category", match category with
                                  | Some c => if String.eqb c "" then VUndefined else VStr c
                                  | None => VUndefined
                                  end);
                     ("search", VUndefined); ("page", VUndefined); ("page_size", VNum 20)]).
  { unfold filter_request, outgoing.
    destruct (request_interceptor_frame (document_cookie (browser w))
                (mergeConfig apiClient_defaults GET "/news/articles/" None
                   (params_config (Some (article_query_fields
                                           (AppContent.category_query category))))))
      as (_ & _ & _ & _ & -> & _).
    destruct category as [c|]; [|done]. cbn.
    unfold article_query_fields, AppContent.category_query,
      AppContent.category_or_undefined. cbn.
    by destruct (String.eqb c ""). }
  destruct Hd as [Hd|Hd]; rewrite Hd;
    (eexists; split; [reflexivity|]; cbn; by repeat split).
Qed.

Lemma filter_shows_category_witness :
  let arts := [sample_article 5 false] in
  let w := busy_world (sample_server 0 arts) [] in
  ∃ w', AppContent.handleCategoryFilter (Some "") w = (Returned tt, w') ∧
        sent w' = [filter_request None w] ∧
        articles (app w') = arts ∧ selectedCategory (app w') = Some "".
Proof.
  intros arts w.
  assert (Ha : answers_articles (server w (sent w) (filter_request (Some "") w)) arts).
  { exists {| status := 200; response_data := BodyPage arts |}.
    split; [reflexivity|]. split; [reflexivity|]. by left. }
  destruct (filter_shows_category (Some "") w arts Ha)
    as (w' & Hrun & Hs & _ & Harts & Hc & _).
  exists w'. split; [exact Hrun|]. split; [exact Hs|]. split; [exact Harts|exact Hc].
Defined.

(** *** Signing out *)

(** X15: [handleLogout] returns whatever the server answers; afterwards
    nobody is signed in, the stored user entry is gone and no analysis is
    selected, after the one logout request.  The list of articles is not
    reloaded: it is the list of before, [has_analysis] flags included. *)
Theorem handleLogout_clears_session (w : World) :
  ∃ w', AppContent.handleLogout w = (Returned tt, w') ∧
        user (auth w') = None ∧
        localStorage (browser w') !! "user" = None ∧
        selectedAnalysis (app w') = None ∧
        articles (app w') = articles (app w) ∧
        sent w' = sent w ++ [logout_request w].
Proof.
  unfold AppContent.handleLogout, AuthProvider.logout, finally, try_catch, bind,
    authAPI.logout, apiClient_post.
  rewrite apiClient_request_run. cbn zeta.
  change (outgoing POST "/auth/logout/" None no_config w) with (logout_request w).
  reply_cases (server w (sent w) (logout_request w));
    (eexists; split; [reflexivity|]; cbn; repeat split; apply lookup_delete_eq).
Qed.

(** ** Further properties of [AuthProvider] *)

Section SessionFacts.

Variable JSON_stringify : User -> string.

(** X16: when the login request is answered with a user, that user is
    signed in and the serialized user is stored under [user]; the
    application state is not touched. *)
Theorem login_opens_session (username password : string) (w : World)
    (resp : AxiosResponse) (u : User) :
  server w (sent w) (login_request username password w) = HttpReply resp →
  validateStatus (status resp) = true →
  response_data resp = BodyAuth u →
  ∃ w', AuthProvider.login JSON_stringify username password w = (Returned tt, w') ∧
        user (auth w') = Some u ∧
        AuthProvider.isAuthenticated w' = true ∧
        localStorage (browser w') !! "user" = Some (JSON_stringify u) ∧
        sent w' = sent w ++ [login_request username password w] ∧
        app w' = app w.
Proof.
  intros Hr Hv Hd.
  unfold AuthProvider.login, AuthProvider.open_session, try_catch, bind,
    authAPI.login, apiClient_post.
  rewrite apiClient_request_run. cbn zeta.
  change (outgoing POST "/auth/login/" _ no_config w)
    with (login_request username password w).
  rewrite Hr, Hv, Hd.
  eexists. split; [reflexivity|]. cbn. repeat split. apply lookup_insert_eq.
Qed.

(** X17: when the login request is rejected, [login] rejects with the
    error of the client, and nobody is signed in or out by it: the auth
    context and the application state are as before, and so is the browser
    unless the reply is a 401. *)
Theorem login_failure_rethrown (username password : string) (w : World) :
  call_rejects (server w (sent w) (login_request username password w)) →
  ∃ err w', AuthProvider.login JSON_stringify username password w = (Thrown (EAxios err), w') ∧
            (∀ resp, server w (sent w) (login_request username password w) = HttpReply resp →
                     response err = Some resp) ∧
            auth w' = auth w ∧ app w' = app w ∧
            sent w' = sent w ++ [login_request username password w] ∧
            (not_unauthorized (server w (sent w) (login_request username password w)) →
             browser w' = browser w).
Proof.
  unfold AuthProvider.login, AuthProvider.open_session, try_catch, bind,
    authAPI.login, apiClient_post.
  rewrite apiClient_request_run. cbn zeta.
  change (outgoing POST "/auth/login/" _ no_config w)
    with (login_request username password w).
  destruct (server w (sent w) (login_request username password w)) as [resp|code];
    cbn [call_rejects not_unauthorized].
  - intros ->. destruct (Z.eqb_spec (status resp) 401) as [He|Hne];
      (do 2 eexists; split; [reflexivity|]; cbn; repeat split; try done).
    by intros ? [= ->]. by intros ? [= ->].
  - intros _. do 2 eexists. split; [reflexivity|]. cbn. repeat split; done.
Qed.

(** X18: a login reply that is accepted but carries no user signs nobody
    in: the user of the auth context becomes null, and the string
    [undefined] is stored under [user]. *)
Theorem login_without_user (username password : string) (w : World) (resp : AxiosResponse) :
  server w (sent w) (login_request username password w) = HttpReply resp →
  validateStatus (status resp) = true →
  response_data resp ≠ BodyNull →
  (∀ u, response_data resp ≠ BodyAuth u) →
  ∃ w', AuthProvider.login JSON_stringify username password w = (Returned tt, w') ∧
        user (auth w') = None ∧
        AuthProvider.isAuthenticated w' = false ∧
        localStorage (browser w') !! "user" = Some "undefined".
Proof.
  intros Hr Hv Hnn Hna.
  unfold AuthProvider.login, AuthProvider.open_session, try_catch, bind,
    authAPI.login, apiClient_post.
  rewrite apiClient_request_run. cbn zeta.
  change (outgoing POST "/auth/login/" _ no_config w)
    with (login_request username password w).
  rewrite Hr, Hv.
  destruct (response_data resp) as [| | | | | |u| |]; try done;
    try (eexists; split; [reflexivity|]; cbn; repeat split; apply lookup_insert_eq).
  by destruct (Hna u).
Qed.

End SessionFacts.

Lemma login_opens_session_witness :
  let w := signed_out_world (reply_with 200 (BodyAuth demo_user)) [] in
  ∃ w', AuthProvider.login sample_stringify "demo_user" "demo123" w = (Returned tt, w') ∧
        user (auth w') = Some demo_user ∧
        localStorage (browser w') !! "user" = Some "user:demo_user".
Proof.
  intros w.
  destruct (login_opens_session sample_stringify "demo_user" "demo123" w
              {| status := 200; response_data := BodyAuth demo_user |} demo_user
              eq_refl eq_refl eq_refl)
    as (w' & Hrun & Hu & _ & Hl & _).
  exists w'. split; [exact Hrun|]. split; [exact Hu|exact Hl].
Defined.

Lemma login_failure_rethrown_witness :
  let w := signed_out_world (reply_with 400 BodyOther) [] in
  ∃ err w', AuthProvider.login sample_stringify "demo_user" "wrong" w
              = (Thrown (EAxios err), w') ∧
            auth w' = auth w ∧ browser w' = browser w.
Proof.
  intros w.
  destruct (login_failure_rethrown sample_stringify "demo_user" "wrong" w eq_refl)
    as (err & w' & Hrun & _ & Ha & _ & _ & Hb).
  exists err, w'. split; [exact Hrun|]. split; [exact Ha|].
  apply Hb. cbn. discriminate.
Defined.

Lemma login_without_user_witness :
  let w := sample_world django_cookies (reply_with 200 BodyOther) [] in
  ∃ w', AuthProvider.login sample_stringify "demo_user" "demo123" w = (Returned tt, w') ∧
        user (auth w) = Some demo_user ∧ user (auth w') = None ∧
        localStorage (browser w') !! "user" = Some "undefined".
Proof.
  intros w.
  assert (Hnn : BodyOther ≠ BodyNull) by discriminate.
  assert (Hna : ∀ u, BodyOther ≠ BodyAuth u) by discriminate.
  destruct (login_without_user sample_stringify "demo_user" "demo123" w
              {| status := 200; response_data := BodyOther |} eq_refl eq_refl Hnn Hna)
    as (w' & Hrun & Hu & _ & Hl).
  exists w'. split; [exact Hrun|]. split; [reflexivity|]. split; [exact Hu|exact Hl].
Defined.

(** X19: [checkAuthStatus] never rejects and always ends the loading of
    the auth context, after one request for the current user.  When the
    request is rejected nobody is signed in and the stored user entry is
    removed; when it is answered with a user, that user is signed in and
    localStorage is left alone. *)
Theorem checkAuthStatus_settles (w : World) :
  ∃ w', AuthProvider.checkAuthStatus w = (Returned tt, w') ∧
        authLoading (auth w') = false ∧
        sent w' = sent w ++ [current_user_request w] ∧
        app w' = app w ∧
        (call_rejects (server w (sent w) (current_user_request w)) →
         user (auth w') = None ∧ localStorage (browser w') !! "user" = None) ∧
        (∀ resp u,
           server w (sent w) (current_user_request w) = HttpReply resp →
           validateStatus (status resp) = true →
           response_data resp = BodyUser u →
           user (auth w') = Some u ∧ browser w' = browser w).
Proof.
  unfold AuthProvider.checkAuthStatus, finally, try_catch, bind, authAPI.getCurrentUser,
    apiClient_get.
  rewrite apiClient_request_run. cbn zeta.
  change (outgoing GET "/auth/user/" None no_config w) with (current_user_request w).
  destruct (server w (sent w) (current_user_request w)) as [resp|code];
    cbn [call_rejects].
  - destruct (validateStatus (status resp)) eqn:Hv.
    + eexists. split; [reflexivity|]. cbn.
      do 3 (split; [done|]). split; [done|].
      intros resp' u [= <-] _ ->. done.
    + destruct (status resp =? 401)%Z;
        (eexists; split; [reflexivity|]; cbn;
         do 3 (split; [done|]); split;
         [ intros _; split; [done|apply lookup_delete_eq]
         | intros resp' u [= <-] Hv'; congruence ]).
  - eexists. split; [reflexivity|]. cbn.
    do 3 (split; [done|]). split; [|done].
    intros _. split; [done|apply lookup_delete_eq].
Qed.

(** ** Further properties of [AnalysisDashboard] *)

Lemma insert_bar_length (x : TopicBar) (l : list TopicBar) :
  length (insert_bar x l) = S (length l).
Proof.
  induction l as [|y l IH]; [done|]. cbn.
  destruct (topic_value x <? topic_value y)%Z; cbn; [by rewrite IH|done].
Qed.

Lemma sort_bars_length (l : list TopicBar) : length (sort_bars l) = length l.
Proof.
  induction l as [|x l IH]; [done|].
  cbn [sort_bars foldr]. fold (sort_bars l). by rewrite insert_bar_length, IH.
Qed.

Lemma insert_bar_perm (x : TopicBar) (l : list TopicBar) : insert_bar x l ≡ₚ x :: l.
Proof.
  induction l as [|y l IH]; [done|]. cbn.
  destruct (topic_value x <? topic_value y)%Z; [|done].
  rewrite IH. apply Permutation_swap.
Qed.

Lemma sort_bars_perm (l : list TopicBar) : sort_bars l ≡ₚ l.
Proof.
  induction l as [|x l IH]; [done|].
  cbn [sort_bars foldr]. fold (sort_bars l). by rewrite insert_bar_perm, IH.
Qed.

Lemma insert_bar_sorted (x : TopicBar) (l : list TopicBar) :
  StronglySorted by_value_desc l → StronglySorted by_value_desc (insert_bar x l).
Proof.
  induction 1 as [|y l Hl IH Hy]; cbn.
  - by repeat constructor.
  - destruct (Z.ltb_spec (topic_value x) (topic_value y)) as [Hlt|Hge].
    + constructor; [done|].
      rewrite insert_bar_perm. constructor; [|done]. unfold by_value_desc. lia.
    + constructor; [by constructor|].
      constructor; [done|].
      eapply Forall_impl; [exact Hy|]. unfold by_value_desc. intros z Hz. cbn in *. lia.
Qed.

Lemma sort_bars_sorted (l : list TopicBar) : StronglySorted by_value_desc (sort_bars l).
Proof.
  induction l as [|x l IH]; [constructor|].
  cbn [sort_bars foldr]. fold (sort_bars l). by apply insert_bar_sorted.
Qed.

Lemma StronglySorted_app_split (l1 l2 : list TopicBar) :
  StronglySorted by_value_desc (l1 ++ l2) →
  StronglySorted by_value_desc l1 ∧
  ∀ x y, x ∈ l1 → y ∈ l2 → by_value_desc x y.
Proof.
  induction l1 as [|a l1 IH]; cbn; intros Hs.
  - split; [constructor|]. intros x y Hx. by apply elem_of_nil in Hx.
  - apply StronglySorted_inv in Hs as [Hs Ha]. destruct (IH Hs) as [IH1 IH2].
    apply Forall_app in Ha as [Ha1 Ha2].
    split; [by constructor|].
    intros x y Hx Hy. apply elem_of_cons in Hx as [->|Hx].
    + rewrite Forall_forall in Ha2. by apply Ha2.
    + by apply IH2.
Qed.

(** X20: the topics chart shows the five most relevant topics, most
    relevant first: at most five bars, as many as there are topics when
    these are fewer, in decreasing order of value; together with the bars
    left out they are the bars of all the topics, and no bar left out has
    a greater value than a bar shown. *)
Theorem topicsData_top_five (analysis : SentimentAnalysis) :
  length (topicsData analysis) = (length (topic_distribution analysis) `min` 5)%nat ∧
  StronglySorted by_value_desc (topicsData analysis) ∧
  ∃ rest, topicsData analysis ++ rest ≡ₚ topic_bar <$> topic_distribution analysis ∧
          ∀ shown out, shown ∈ topicsData analysis → out ∈ rest →
                       (topic_value out <= topic_value shown)%Z.
Proof.
  unfold topicsData. set (bars := topic_bar <$> topic_distribution analysis).
  pose proof (sort_bars_sorted bars) as Hs.
  rewrite <- (take_drop 5 (sort_bars bars)) in Hs.
  apply StronglySorted_app_split in Hs as [Hs1 Hs2].
  split; [|split; [done|]].
  - rewrite length_take, sort_bars_length. unfold bars. rewrite length_fmap. lia.
  - exists (drop 5 (sort_bars bars)). split; [|exact Hs2].
    by rewrite take_drop, sort_bars_perm.
Qed.

Lemma insert_bar_filter (v : Z) (x : TopicBar) (l : list TopicBar) :
  StronglySorted by_value_desc l →
  filter (fun b => topic_value b = v) (insert_bar x l) =
  filter (fun b => topic_value b = v) (x :: l).
Proof.
  induction 1 as [|y l Hl IH Hy]; [done|]. cbn [insert_bar].
  destruct (Z.ltb_spec (topic_value x) (topic_value y)) as [Hlt|Hge]; [|done].
  rewrite (filter_cons _ y), IH, !(filter_cons _ x), (filter_cons _ y).
  repeat case_decide; try done. lia.
Qed.

(** X21: the sort of the topics chart is stable: the bars of any one value
    are shown in the order of the entries of the topic distribution. *)
Theorem sort_bars_stable (v : Z) (l : list TopicBar) :
  filter (fun b => topic_value b = v) (sort_bars l) =
  filter (fun b => topic_value b = v) l.
Proof.
  induction l as [|x l IH]; [done|].
  cbn [sort_bars foldr]. fold (sort_bars l).
  rewrite insert_bar_filter by apply sort_bars_sorted.
  by rewrite !(filter_cons _ x), IH.
Qed.

Lemma toUpperCase_underscore (c : ascii) :
  Ascii.eqb (JS.toUpperCase c) "_" = Ascii.eqb c "_".
Proof. destruct c as [[] [] [] [] [] [] [] []]; reflexivity. Qed.

Lemma replace_first_underscores (t : string) :
  count_char "_" (JS.replace_first "_" " " t) = pred (count_char "_" t) ∧
  String.length (JS.replace_first "_" " " t) = String.length t.
Proof.
  induction t as [|c t [IH1 IH2]]; [done|]. cbn.
  destruct (Ascii.eqb c "_") eqn:Hc; cbn; [done|].
  by rewrite Hc, IH1, IH2.
Qed.

Lemma capitalize_from_underscores (prev : bool) (t : string) :
  count_char "_" (JS.capitalize_from prev t) = count_char "_" t ∧
  String.length (JS.capitalize_from prev t) = String.length t.
Proof.
  revert prev. induction t as [|c t IH]; intros prev; [done|]. cbn.
  destruct (IH (JS.is_word c)) as [-> ->]. split; [|done].
  destruct (JS.is_word c && negb prev); [|done].
  by rewrite toUpperCase_underscore.
Qed.

(** X22: the label of a topic has the length of the topic, and exactly one
    underscore less when the topic has any: only the first underscore is
    turned into a space, the others are displayed. *)
Theorem topic_label_underscores (t : string) :
  String.length (topic_label t) = String.length t ∧
  count_char "_" (topic_label t) = pred (count_char "_" t).
Proof.
  unfold topic_label, JS.capitalize_words.
  destruct (capitalize_from_underscores false (JS.replace_first "_" " " t)) as [-> ->].
  destruct (replace_first_underscores t) as [-> ->]. done.
Qed.

(** Two underscores: the second one stays. *)
Example topic_label_second_underscore :
  topic_label "foreign_policy_usa" = "Foreign Policy_usa".
Proof. reflexivity. Qed.

Lemma Math_round_percent (x : Q) :
  (0 <= x)%Q → (x <= 1)%Q → (0 <= JS.Math_round (x * 100) <= 100)%Z.
Proof.
  intros H0 H1. destruct (Math_round_bounds (x * 100)) as [Hlo Hhi].
  set (r := JS.Math_round (x * 100)) in *. clearbody r.
  assert (Ha : (inject_Z (-1) < inject_Z r)%Q).
  { change (inject_Z (-1)) with (-1 # 1)%Q. lra. }
  assert (Hb : (inject_Z r < inject_Z 101)%Q).
  { change (inject_Z 101) with (101 # 1)%Q. lra. }
  rewrite <- Zlt_Qlt in Ha, Hb. lia.
Qed.

(** X23: when the three sentiment fields of an analysis are between 0 and
    1, each percentage of the sentiment chart is between 0 and 100. *)
Theorem sentimentData_percentages (a : SentimentAnalysis) :
  (0 <= positive_sentiment a)%Q → (positive_sentiment a <= 1)%Q →
  (0 <= negative_sentiment a)%Q → (negative_sentiment a <= 1)%Q →
  (0 <= neutral_sentiment a)%Q → (neutral_sentiment a <= 1)%Q →
  Forall (fun s => (0 <= slice_value s <= 100)%Z) (sentimentData a) ∧
  slice_name <$> sentimentData a = ["Positive"; "Negative"; "Neutral"].
Proof.
  intros Hp0 Hp1 Hn0 Hn1 Hu0 Hu1. split; [|done].
  unfold sentimentData. repeat constructor; cbn; by apply Math_round_percent.
Qed.

Lemma sentimentData_percentages_witness :
  let a := sample_analysis (4 # 10) (15 # 100) (45 # 100) in
  Forall (fun s => (0 <= slice_value s <= 100)%Z) (sentimentData a).
Proof.
  intros a.
  assert (H0 : ∀ p d : positive, (0 <= Z.pos p # d)%Q) by (intros; by unfold Qle).
  apply (sentimentData_percentages a); cbn; try apply H0; by unfold Qle.
Defined.

(** ** Further properties of the request URLs *)

Lemma string_app_length (a b : string) :
  String.length (a +:+ b) = String.length a + String.length b.
Proof.
  induction a as [|c a IH]; [done|].
  change (S (String.length (a +:+ b)) = S (String.length a + String.length b)).
  by rewrite IH.
Qed.

Lemma string_app_inj_r (s1 s2 t : string) : s1 +:+ t = s2 +:+ t → s1 = s2.
Proof.
  revert s2. induction s1 as [|c s1 IH]; intros [|d s2] H; [done| | |].
  - apply (f_equal String.length) in H.
    rewrite !string_app_length in H. cbn in H. lia.
  - apply (f_equal String.length) in H.
    rewrite !string_app_length in H. cbn in H. lia.
  - change (String c (s1 +:+ t) = String d (s2 +:+ t)) in H.
    injection H as -> H. by rewrite (IH s2 H).
Qed.

(** X24: the requests for one article, for one analysis and for marking an
    article as read go to a URL that determines the id: two different ids
    never give the same URL. *)
Theorem id_urls_distinct (i j : Z) (w : World) :
  ∃ article_i article_j analysis_i analysis_j read_i read_j,
    sent (snd (newsAPI.getArticle i w)) = sent w ++ [article_i] ∧
    sent (snd (newsAPI.getArticle j w)) = sent w ++ [article_j] ∧
    sent (snd (analysisAPI.getAnalysis i w)) = sent w ++ [analysis_i] ∧
    sent (snd (analysisAPI.getAnalysis j w)) = sent w ++ [analysis_j] ∧
    sent (snd (newsAPI.markAsRead i w)) = sent w ++ [read_i] ∧
    sent (snd (newsAPI.markAsRead j w)) = sent w ++ [read_j] ∧
    (req_url article_i = req_url article_j → i = j) ∧
    (req_url analysis_i = req_url analysis_j → i = j) ∧
    (req_url read_i = req_url read_j → i = j).
Proof.
  unfold newsAPI.getArticle, analysisAPI.getAnalysis, newsAPI.markAsRead,
    apiClient_get, apiClient_post.
  do 6 eexists. rewrite !apiClient_request_sent.
  do 6 (split; [reflexivity|]).
  unfold outgoing.
  repeat match goal with
  | |- context [req_url (request_interceptor ?c ?cfg)] =>
      let H := fresh in
      destruct (request_interceptor_frame c cfg) as (_ & H & _); rewrite H; clear H
  end.
  cbn [req_url mergeConfig].
  repeat split; intros H.
  - apply String.app_inj, string_app_inj_r in H. by apply (inj pretty).
  - apply String.app_inj, string_app_inj_r in H. by apply (inj pretty).
  - apply String.app_inj, string_app_inj_r in H. by apply (inj pretty).
Qed.

Section RegisterFacts.

Variable JSON_stringify : User -> string.

(** X25: when the register request is answered with a user, the new user
    is signed in at once and stored under [user], after the one request
    that carries the form as it was filled in. *)
Theorem register_opens_session (userData : RegisterData) (w : World)
    (resp : AxiosResponse) (u : User) :
  server w (sent w)
    (outgoing POST "/auth/register/" (Some (register_fields userData)) no_config w)
    = HttpReply resp →
  validateStatus (status resp) = true →
  response_data resp = BodyAuth u →
  ∃ r w', AuthProvider.register JSON_stringify userData w = (Returned tt, w') ∧
          sent w' = sent w ++ [r] ∧
          method r = POST ∧ req_url r = "/auth/register/" ∧
          data r = Some (register_fields userData) ∧
          user (auth w') = Some u ∧
          localStorage (browser w') !! "user" = Some (JSON_stringify u).
Proof.
  intros Hr Hv Hd.
  unfold AuthProvider.register, AuthProvider.open_session, try_catch, bind,
    authAPI.register, apiClient_post.
  rewrite apiClient_request_run. cbn zeta.
  rewrite Hr, Hv, Hd.
  do 2 eexists. split; [reflexivity|]. cbn.
  split; [reflexivity|].
  unfold outgoing.
  destruct (request_interceptor_frame (document_cookie (browser w))
              (mergeConfig apiClient_defaults POST "/auth/register/"
                 (Some (register_fields userData)) no_config))
    as (-> & -> & _ & -> & _).
  repeat split. apply lookup_insert_eq.
Qed.

End RegisterFacts.

(** A registration form as filled in, the optional names left out. *)
Lemma register_opens_session_witness :
  let form := {| reg_username := "ada"; reg_email := "ada@example.com";
                 reg_password := "s3cret"; reg_password_confirm := "s3cret";
                 reg_first_name := None; reg_last_name := None |} in
  let w := signed_out_world (reply_with 201 (BodyAuth demo_user)) [] in
  ∃ r w', AuthProvider.register sample_stringify form w = (Returned tt, w') ∧
          sent w' = [r] ∧ user (auth w') = Some demo_user.
Proof.
  intros form w.
  destruct (register_opens_session sample_stringify form w
              {| status := 201; response_data := BodyAuth demo_user |} demo_user
              eq_refl eq_refl eq_refl)
    as (r & w' & Hrun & Hs & _ & _ & _ & Hu & _).
  exists r, w'. split; [exact Hrun|]. split; [exact Hs|exact Hu].
Defined.
